(** * File-size explorer: the tree provider of [fileExplorer.ts]

    A shallow embedding of the TypeScript source: the [_] utility namespace,
    the [FileStat] wrapper and the [FileSystemProvider] class (watch, stat,
    readDirectory, getChildren, getTreeItem, _getGzipSize, _getDirSize),
    followed by the properties of the specification that concern them.

    JavaScript values are kept as the code has them: a [number] that may be
    [undefined] or [NaN] is a [jsnum]; a promise is one of resolved, rejected
    or never settled; the file system and the libraries the provider calls
    ([fs], [path], [filesize], [gzip-size], [fast-folder-size]) are explicit
    arguments. *)

From Stdlib Require Import ZArith List Bool String Lia Sorted Permutation.
From Stdlib Require Import DecimalString OrdersEx RelationClasses.
From Stdlib Require Strings.Byte.
Import ListNotations.

Local Open Scope string_scope.
Local Open Scope Z_scope.

(** ** JavaScript values *)

(** A value read where TypeScript declares [number]: an integral number
    (byte counts and millisecond time stamps are integers), [NaN], or
    [undefined] (a property that was never set). *)
Inductive jsnum : Type :=
| JNum (z : Z)
| JNaN
| JUndefined.

(** [ToInt32], the conversion the bit operators apply to their operands:
    [undefined] and [NaN] become 0, a number wraps modulo 2^32 into the
    signed range. *)
Definition ToInt32 (v : jsnum) : Z :=
  match v with
  | JNum z => let m := z mod 2 ^ 32 in if m <? 2 ^ 31 then m else m - 2 ^ 32
  | JNaN | JUndefined => 0
  end.

(** Errors that the provider can raise or pass on. *)
Inductive FileSystemErrorKind : Type :=
| FileNotFound
| FileIsADirectory
| FileExists
| NoPermissions.

Inductive Error : Type :=
| FileSystemError (k : FileSystemErrorKind)  (* vscode.FileSystemError.*  *)
| NodeError (code : string)                  (* an fs error, with its code *)
| TypeError                                  (* raised by the runtime or a library *)
| OperationCancelled.                        (* new Error('Operation cancelled') *)

(** The state in which a promise is observed by the code awaiting it. A
    promise whose executor never calls [resolve] or [reject] stays
    [Pending]. *)
Inductive Promise (A : Type) : Type :=
| Resolved (a : A)
| Rejected (e : Error)
| Pending.

Arguments Resolved {A} a.
Arguments Rejected {A} e.
Arguments Pending {A}.

(** [await p] followed by the rest of an async function. *)
Definition await {A B : Type} (p : Promise A) (k : A -> Promise B) : Promise B :=
  match p with
  | Resolved a => k a
  | Rejected e => Rejected e
  | Pending => Pending
  end.

Notation "x <- p ;; k" := (await p (fun x => k))
  (at level 61, p at next level, right associativity).

(** ** The [vscode] API types the provider uses *)

Module vscode.

Inductive FileType : Type := Unknown | File | Directory | SymbolicLink.

(** The enum's numeric values. *)
Definition FileType_value (t : FileType) : Z :=
  match t with Unknown => 0 | File => 1 | Directory => 2 | SymbolicLink => 64 end.

Definition FileType_eqb (a b : FileType) : bool :=
  FileType_value a =? FileType_value b.

Inductive FileChangeType : Type := Changed | Created | Deleted.

Inductive TreeItemCollapsibleState : Type := None | Collapsed | Expanded.

(** A resource identifier. For a file URI on a POSIX host [fsPath] is the
    path component. *)
Record Uri : Type := { scheme : string; path : string }.

Definition fsPath (u : Uri) : string := path u.

(** [vscode.Uri.file(p)] *)
Definition Uri_file (p : string) : Uri := {| scheme := "file"; path := p |}.

(** [uri.with({ path: p })] *)
Definition Uri_with_path (u : Uri) (p : string) : Uri :=
  {| scheme := scheme u; path := p |}.

Record FileChangeEvent : Type :=
  { fce_type : FileChangeType; fce_uri : Uri }.

Record WorkspaceFolder : Type := { wf_uri : Uri; wf_name : string }.


Record Command : Type :=
  { command : string; title : string; arguments : list Uri }.

Record TreeItem : Type :=
  { resourceUri : Uri;
    collapsibleState : TreeItemCollapsibleState;
    ti_command : option Command;
    contextValue : option string;
    description : option string }.

End vscode.

(** ** The host: runtime and library functions

    What Node and the npm libraries compute is not part of the repository;
    a [Host] supplies it. *)
Record Host : Type :=
  { darwin : bool;                           (* process.platform === 'darwin' *)
    nfc : string -> string;                  (* s.normalize('NFC') *)
    path_join : string -> string -> string;  (* path.join(a, b) *)
    localeCompare : string -> string -> Z;   (* a.localeCompare(b) *)
    filesize_fmt : Z -> string }.            (* filesize(n), n a number *)

(** [filesize(arg)]: the library raises a TypeError when [isNaN(arg)], which
    is the case for [NaN] and for [undefined]; otherwise it formats. *)
Definition filesize (h : Host) (arg : jsnum) : Error + string :=
  match arg with
  | JNum n => inr (filesize_fmt h n)
  | JNaN | JUndefined => inl TypeError
  end.

(** ** The file system, as the provider queries it *)

(** What the operating system reports for a path ([fs.statSync] succeeded). *)
Record RawStat : Type :=
  { st_mode : Z; st_size : Z; st_ctime : Z; st_mtime : Z }.

(** An [fs.Stats] object: the properties the provider reads. [ctime] and
    [mtime] are [Date]s, held by their time value ([getTime()], which is
    [NaN] for an invalid date). *)
Module Stats.

Record t : Type :=
  { mode : jsnum; size : jsnum; ctime : jsnum; mtime : jsnum }.

(** The object [fs.statSync] returns. *)
Definition of_raw (r : RawStat) : t :=
  {| mode := JNum (st_mode r); size := JNum (st_size r);
     ctime := JNum (st_ctime r); mtime := JNum (st_mtime r) |}.

(** [new fs.Stats()]: the constructor stores its (absent) arguments, so
    every property is [undefined], and the dates built from [undefined]
    are invalid. *)
Definition new : t :=
  {| mode := JUndefined; size := JUndefined; ctime := JNaN; mtime := JNaN |}.

Definition S_IFMT : Z := 61440.   (* 0o170000 *)
Definition S_IFREG : Z := 32768.  (* 0o100000 *)
Definition S_IFDIR : Z := 16384.  (* 0o040000 *)
Definition S_IFLNK : Z := 40960.  (* 0o120000 *)

(** [(this.mode & S_IFMT) === property], the test behind [isFile()],
    [isDirectory()] and [isSymbolicLink()]. *)
Definition checkModeProperty (s : t) (property : Z) : bool :=
  Z.land (ToInt32 (mode s)) S_IFMT =? property.

Definition isFile (s : t) : bool := checkModeProperty s S_IFREG.
Definition isDirectory (s : t) : bool := checkModeProperty s S_IFDIR.
Definition isSymbolicLink (s : t) : bool := checkModeProperty s S_IFLNK.

End Stats.

(** How [fs.readdir(path, callback)] ends: it throws at the call (an invalid
    path argument), or calls back with an error, or with the names. *)
Inductive readdir_result : Type :=
| ReaddirThrows
| ReaddirError (code : string)
| ReaddirOk (children : list string).

(** How [fastFolderSize(path, callback)] ends: it throws at the call, or
    calls back with an error (and no result), or with the byte count. *)
Inductive folder_size_result : Type :=
| FolderSizeThrows
| FolderSizeError
| FolderSizeOk (bytes : Z).

(** A snapshot of the file system: the answer to each query the provider
    can make, as one operation of the provider gets them. [None] stands for
    a call that throws. *)
Record FS : Type :=
  { fs_readdir : string -> readdir_result;
    fs_statSync : string -> option RawStat;
    fs_access : string -> bool;                (* true: fs.access succeeds *)
    gzipSize_fileSync : string -> option Z;
    fastFolderSize : string -> folder_size_result }.

(** ** namespace [_] *)

Module Util.

Definition massageError (code : string) : Error :=
  if String.eqb code "ENOENT" then FileSystemError FileNotFound
  else if String.eqb code "EISDIR" then FileSystemError FileIsADirectory
  else if String.eqb code "EEXIST" then FileSystemError FileExists
  else if String.eqb code "EPERM" || String.eqb code "EACCESS" || String.eqb code "EBUSY"
       then FileSystemError NoPermissions
  else NodeError code.

(** [handleResult(resolve, reject, error, result)] settles the promise. *)
Definition handleResult {A : Type} (error : option string) (result : A) : Promise A :=
  match error with
  | Some code => Rejected (massageError code)
  | None => Resolved result
  end.


(** [normalizeNFC(items: string)] *)
Definition normalizeNFC (h : Host) (items : string) : string :=
  if negb (darwin h) then items else nfc h items.

(** [normalizeNFC(items: string[])], called by [readdir] with the
    callback's second argument, which is [undefined] ([None]) when the
    listing failed. Off darwin the argument is returned untouched; on
    darwin [undefined] is not an array and [undefined.normalize] raises. *)
Definition normalizeNFC_items (h : Host) (items : option (list string))
  : Error + option (list string) :=
  if negb (darwin h) then inr items
  else match items with
       | Some l => inr (Some (map (nfc h) l))
       | None => inl TypeError
       end.

(** The callback [readdir] hands to [fs.readdir]:
    [(error, children) => handleResult(resolve, reject, error, normalizeNFC(children))].
    The argument [normalizeNFC(children)] is evaluated before
    [handleResult] is entered; if it raises, the promise is never settled. *)
Definition readdir_callback (h : Host) (error : option string)
           (children : option (list string)) : Promise (list string) :=
  match normalizeNFC_items h children with
  | inl _ => Pending
  | inr items => handleResult error (match items with Some l => l | None => [] end)
  end.

(** [readdir(path)]. An exception of [fs.readdir] itself is caught and
    logged, and the promise is left unsettled. *)
Definition readdir (h : Host) (fs : FS) (path : string) : Promise (list string) :=
  match fs_readdir fs path with
  | ReaddirThrows => Pending
  | ReaddirError code => readdir_callback h (Some code) None
  | ReaddirOk children => readdir_callback h None (Some children)
  end.

(** [stat(path)]: [fs.statSync] inside try/catch; both branches resolve. *)
Definition stat (fs : FS) (path : string) : Promise Stats.t :=
  match fs_statSync fs path with
  | Some info => Resolved (Stats.of_raw info)
  | None => Resolved Stats.new
  end.

(** [exists(path)]: true when [fs.access] succeeds, false when it fails. *)
Definition exists_ (fs : FS) (path : string) : Promise bool :=
  if fs_access fs path then Resolved true else Resolved false.

End Util.

(** ** class [FileStat] *)

Module FileStat.

Record t : Type := { fsStat : Stats.t }.

Definition type (f : t) : vscode.FileType :=
  if Stats.isFile (fsStat f) then vscode.File
  else if Stats.isDirectory (fsStat f) then vscode.Directory
  else if Stats.isSymbolicLink (fsStat f) then vscode.SymbolicLink
  else vscode.Unknown.

Definition isFile (f : t) : bool := Stats.isFile (fsStat f).
Definition isDirectory (f : t) : bool := Stats.isDirectory (fsStat f).
Definition isSymbolicLink (f : t) : bool := Stats.isSymbolicLink (fsStat f).
Definition size (f : t) : jsnum := Stats.size (fsStat f).
Definition ctime (f : t) : jsnum := Stats.ctime (fsStat f).
Definition mtime (f : t) : jsnum := Stats.mtime (fsStat f).

End FileStat.

Record Entry : Type := { uri : vscode.Uri; type : vscode.FileType }.

(** A value handed to a command or to an emitter, where the runtime checks
    no type: a uri, a tree element, [undefined] (or [null]), or any other
    value (one without a [uri] property). *)
Inductive Arg : Type :=
| ArgUri (u : vscode.Uri)
| ArgEntry (e : Entry)
| ArgUndefined
| ArgOther.

(** ** [Array.prototype.sort]

    The sort of the runtime, called with a comparator. ECMAScript fixes its
    result only for a consistent comparator (it is then the stable
    ordering); otherwise the order is implementation-defined. V8 sorts a
    short array by insertion, each element in turn being the pivot and the
    comparator being called as [compare(pivot, placed)]. The model inserts
    linearly with the same call: the pivot goes in front of the first placed
    element for which the result is negative. For a consistent comparator,
    and on every array of two elements, this is the order V8 produces. *)
Section ArraySort.

Context {A : Type} (compare : A -> A -> Z).

Fixpoint sort_insert (pivot : A) (placed : list A) : list A :=
  match placed with
  | [] => [pivot]
  | x :: rest =>
      if compare pivot x <? 0 then pivot :: placed
      else x :: sort_insert pivot rest
  end.

Definition Array_sort (l : list A) : list A :=
  fold_left (fun placed pivot => sort_insert pivot placed) l [].

End ArraySort.

(** ** class [FileSystemProvider] *)

Record WatchOptions : Type := { recursive : bool; excludes : list string }.

(** The provider's two event emitters, each by the payloads fired so far
    (oldest first). *)
Record Provider : Type :=
  { onDidChangeFile : list (list vscode.FileChangeEvent);
    onDidChangeTreeData : list Arg }.

Definition fire_onDidChangeFile (p : Provider)
           (events : list vscode.FileChangeEvent) : Provider :=
  {| onDidChangeFile := onDidChangeFile p ++ [events];
     onDidChangeTreeData := onDidChangeTreeData p |}.

(** A call of the [watch] listener that is suspended at
    [await _.exists(filepath)]: what the rest of the call still needs. *)
Record Suspended : Type :=
  { waiting_uri : vscode.Uri; waiting_filepath : string }.

(** The provider together with the listener calls that wait for their
    existence check, oldest first. *)
Record EventLoop : Type :=
  { provider : Provider; suspended : list Suspended }.

(** What [fs.watch(path, { recursive }, listener)] registers. The listener
    receives the raw event kind and the file name, which the runtime may
    leave out ([null], here [None]). *)
Record FSWatcher : Type :=
  { watched_path : string;
    watched_recursive : bool;
    listener : string -> option string -> EventLoop -> EventLoop }.

(** [filename.toString()]: raises on [null]. *)
Definition toString (filename : option string) : Error + string :=
  match filename with
  | Some name => inr name
  | None => inl TypeError
  end.

Module FileSystemProvider.

Import vscode.

(** The async listener of [watch], up to its first suspension. Its first
    statement converts the file name; without a name that raises, the call
    is rejected and nothing is fired. With a name, for the raw kind
    ['change'] the event is fired within the call; for any other kind the
    call suspends at [await _.exists(filepath)]. *)
Definition watch_listener (h : Host) (uri : Uri)
           (event : string) (filename : option string) (loop : EventLoop) : EventLoop :=
  match toString filename with
  | inl _ => loop
  | inr name =>
      let filepath := path_join h (fsPath uri) (Util.normalizeNFC h name) in
      if String.eqb event "change" then
        {| provider :=
             fire_onDidChangeFile (provider loop)
               [ {| fce_type := Changed; fce_uri := Uri_with_path uri filepath |} ];
           suspended := suspended loop |}
      else
        {| provider := provider loop;
           suspended := (suspended loop ++
                         [ {| waiting_uri := uri; waiting_filepath := filepath |} ])%list |}
  end.

(** The rest of a suspended listener call, run once [_.exists(filepath)]
    has settled with [found]. *)
Definition watch_listener_resumed (call : Suspended) (found : Promise bool)
           (this : Provider) : Provider :=
  match found with
  | Resolved there =>
      fire_onDidChangeFile this
        [ {| fce_type := if there then Created else Deleted;
             fce_uri := Uri_with_path (waiting_uri call) (waiting_filepath call) |} ]
  | Rejected _ | Pending => this
  end.

Definition watch (h : Host) (uri : Uri) (options : WatchOptions) : FSWatcher :=
  {| watched_path := fsPath uri;
     watched_recursive := recursive options;
     listener := watch_listener h uri |}.

Definition _stat (fs : FS) (path : string) : Promise FileStat.t :=
  info <- Util.stat fs path ;; Resolved {| FileStat.fsStat := info |}.

Definition stat (fs : FS) (uri : Uri) : Promise FileStat.t :=
  _stat fs (fsPath uri).

(** The [for] loop of [_readDirectory], from child [i] on. *)
Fixpoint readDirectory_loop (h : Host) (fs : FS) (uri : Uri)
         (children : list string) (result : list (string * FileType))
  : Promise (list (string * FileType)) :=
  match children with
  | [] => Resolved result
  | child :: rest =>
      stat <- _stat fs (path_join h (fsPath uri) child) ;;
      readDirectory_loop h fs uri rest (result ++ [(child, FileStat.type stat)])
  end.

Definition _readDirectory (h : Host) (fs : FS) (uri : Uri)
  : Promise (list (string * FileType)) :=
  children <- Util.readdir h fs (fsPath uri) ;;
  readDirectory_loop h fs uri children [].

Definition readDirectory (h : Host) (fs : FS) (uri : Uri)
  : Promise (list (string * FileType)) :=
  _readDirectory h fs uri.

(** The comparator [getChildren] passes to [sort]. *)
Definition compareChildren (h : Host) (a b : string * FileType) : Z :=
  if FileType_eqb (snd a) (snd b) then localeCompare h (fst a) (fst b)
  else if FileType_eqb (snd a) Directory then -1 else 1.

(** [([name, type]) => ({ uri: vscode.Uri.file(path.join(base, name)), type })] *)
Definition toEntry (h : Host) (base : string) (child : string * FileType) : Entry :=
  {| uri := Uri_file (path_join h base (fst child)); type := snd child |}.

(** [folder => folder.uri.scheme === 'file'] *)
Definition is_file_root (folder : WorkspaceFolder) : bool :=
  String.eqb (scheme (wf_uri folder)) "file".

(** [getChildren(element?)]; [workspaceFolders] is
    [vscode.workspace.workspaceFolders], [None] when it is undefined. *)
Definition getChildren (h : Host) (fs : FS)
           (workspaceFolders : option (list WorkspaceFolder))
           (element : option Entry) : Promise (list Entry) :=
  match workspaceFolders with
  | Datatypes.None => Resolved []
  | Some folders =>
      match element with
      | Some element =>
          children <- readDirectory h fs (uri element) ;;
          Resolved (map (toEntry h (fsPath (uri element))) children)
      | Datatypes.None =>
          match filter is_file_root folders with
          | workspaceFolder :: _ =>
              children <- readDirectory h fs (wf_uri workspaceFolder) ;;
              let children := Array_sort (compareChildren h) children in
              Resolved (map (toEntry h (fsPath (wf_uri workspaceFolder))) children)
          | [] => Resolved []
          end
      end
  end.

Definition _getGzipSize (fs : FS) (path : string) : Z :=
  match gzipSize_fileSync fs path with
  | Some n => n
  | Datatypes.None => 0
  end.

(** [_getDirSize(path)]: the callback resolves with [result] whatever
    [err] is; only an exception of the call itself resolves with 0. *)
Definition _getDirSize (fs : FS) (path : string) : Promise jsnum :=
  match fastFolderSize fs path with
  | FolderSizeOk result => Resolved (JNum result)
  | FolderSizeError => Resolved JUndefined
  | FolderSizeThrows => Resolved (JNum 0)
  end.

(** A template literal whose interpolated call raises rejects the async
    function. *)
Definition interpolate {A : Type} (r : Error + string)
           (k : string -> Promise A) : Promise A :=
  match r with
  | inl e => Rejected e
  | inr s => k s
  end.

Definition getTreeItem (h : Host) (fs : FS) (element : Entry) : Promise TreeItem :=
  let state := if FileType_eqb (type element) Directory then Collapsed else None in
  if FileType_eqb (type element) File then
    let cmd := {| command := "fileExplorer.openFile"; title := "Open File";
                  arguments := [uri element] |} in
    (* var size = 0; try { size = (await this.stat(uri)).size } catch { } *)
    size <- match stat fs (uri element) with
            | Resolved st => Resolved (FileStat.size st)
            | Rejected _ => Resolved (JNum 0)
            | Pending => Pending
            end ;;
    interpolate (filesize h size) (fun s1 =>
    interpolate (filesize h (JNum (_getGzipSize fs (fsPath (uri element))))) (fun s2 =>
    Resolved {| resourceUri := uri element; collapsibleState := state;
                ti_command := Some cmd; contextValue := Some "file";
                description := Some (" -  " ++ s1 ++ " - (" ++ s2 ++ ")") |}))
  else if FileType_eqb (type element) Directory then
    size <- _getDirSize fs (fsPath (uri element)) ;;
    interpolate (filesize h size) (fun s =>
    Resolved {| resourceUri := uri element; collapsibleState := state;
                ti_command := Datatypes.None; contextValue := Datatypes.None;
                description := Some (" - " ++ s) |})
  else
    Resolved {| resourceUri := uri element; collapsibleState := state;
                ti_command := Datatypes.None; contextValue := Datatypes.None;
                description := Datatypes.None |}.

End FileSystemProvider.

(** ** The watcher at work *)

(** What the runtime does with a watcher: it calls the listener for a raw
    notification, or it completes the existence check of the [i]-th
    suspended call, which saw the file system [fs], and runs the rest of
    that call. *)
Inductive Action : Type :=
| Notify (event : string) (filename : option string)
| ExistsSettled (i : nat) (fs : FS).

Definition without_nth {A : Type} (i : nat) (l : list A) : list A :=
  (firstn i l ++ skipn (S i) l)%list.

Definition resume (i : nat) (fs : FS) (loop : EventLoop) : EventLoop :=
  match nth_error (suspended loop) i with
  | Some call =>
      {| provider :=
           FileSystemProvider.watch_listener_resumed call
             (Util.exists_ fs (waiting_filepath call)) (provider loop);
         suspended := without_nth i (suspended loop) |}
  | None => loop
  end.

Definition step (w : FSWatcher) (a : Action) (loop : EventLoop) : EventLoop :=
  match a with
  | Notify event filename => listener w event filename loop
  | ExistsSettled i fs => resume i fs loop
  end.

Definition run (w : FSWatcher) (schedule : list Action) (loop : EventLoop) : EventLoop :=
  fold_left (fun l a => step w a l) schedule loop.

(** The number of raw notifications in a schedule that report a file
    name. *)
Definition notifications (schedule : list Action) : nat :=
  List.length
    (filter (fun a => match a with Notify _ (Some _) => true | _ => false end) schedule).

(** The payloads fired on [onDidChangeFile] so far. *)
Definition fired (loop : EventLoop) : list (list vscode.FileChangeEvent) :=
  onDidChangeFile (provider loop).

(** ** A concrete host and file system, for examples *)

Definition compare_code_points (a b : string) : Z :=
  match String_as_OT.compare a b with Lt => -1 | Eq => 0 | Gt => 1 end.

Definition posix_host : Host :=
  {| darwin := false;
     nfc := fun s => s;
     path_join := fun a b => a ++ "/" ++ b;
     localeCompare := compare_code_points;
     filesize_fmt := fun n => NilEmpty.string_of_int (Z.to_int n) ++ " B" |}.

Definition regular (bytes : Z) : RawStat :=
  {| st_mode := 33188; st_size := bytes; st_ctime := 1600000000000; st_mtime := 1600000000000 |}.

Definition folder : RawStat :=
  {| st_mode := 16877; st_size := 4096; st_ctime := 1600000000000; st_mtime := 1600000000000 |}.

(** The workspace of the specification's example: [/ws] holds the files
    [b.txt] and [a.txt] and the directory [z]; [z] holds a file [n] and a
    name [gone] that can no longer be statted. *)
Definition example_fs : FS :=
  {| fs_readdir := fun p =>
       if String.eqb p "/ws" then ReaddirOk ["b.txt"; "a.txt"; "z"]
       else if String.eqb p "/ws/z" then ReaddirOk ["n"; "gone"]
       else if String.eqb p "/locked" then ReaddirError "EPERM"
       else ReaddirError "ENOENT";
     fs_statSync := fun p =>
       if String.eqb p "/ws" then Some folder
       else if String.eqb p "/ws/b.txt" then Some (regular 100)
       else if String.eqb p "/ws/a.txt" then Some (regular 2048)
       else if String.eqb p "/ws/z" then Some folder
       else if String.eqb p "/ws/z/n" then Some (regular 7)
       else None;
     fs_access := fun p =>
       String.eqb p "/ws" || String.eqb p "/ws/b.txt" || String.eqb p "/ws/a.txt"
       || String.eqb p "/ws/z" || String.eqb p "/ws/z/n";
     gzipSize_fileSync := fun p =>
       if String.eqb p "/ws/b.txt" then Some 60
       else if String.eqb p "/ws/a.txt" then Some 300
       else if String.eqb p "/ws/z/n" then Some 27
       else None;
     fastFolderSize := fun p =>
       if String.eqb p "/ws" then FolderSizeOk 2155
       else if String.eqb p "/ws/z" then FolderSizeOk 7
       else FolderSizeError |}.

Definition ws_uri : vscode.Uri := vscode.Uri_file "/ws".

Definition ws_folder : vscode.WorkspaceFolder :=
  {| vscode.wf_uri := ws_uri; vscode.wf_name := "ws" |}.

Definition idle : EventLoop :=
  {| provider := {| onDidChangeFile := []; onDidChangeTreeData := [] |};
     suspended := [] |}.

Definition z_uri : vscode.Uri := vscode.Uri_file "/ws/z".

Definition z_folder : vscode.WorkspaceFolder :=
  {| vscode.wf_uri := z_uri; vscode.wf_name := "z" |}.

(** A workspace folder that is not on the local file system. *)
Definition remote_folder : vscode.WorkspaceFolder :=
  {| vscode.wf_uri := {| vscode.scheme := "vscode-vfs"; vscode.path := "/ws" |};
     vscode.wf_name := "remote" |}.


Definition entry (p : string) (t : vscode.FileType) : Entry :=
  {| uri := vscode.Uri_file p; type := t |}.

(** ** Reference values for the statements *)

(** The names [readdir] resolves with for a listing [children]. *)
Definition listed_names (h : Host) (children : list string) : list string :=
  if darwin h then map (nfc h) children else children.

(** The type tag [_readDirectory] records for [child] of [uri]: the tag of
    the descriptor [_stat] builds for the joined path. *)
Definition child_type (h : Host) (fs : FS) (uri : vscode.Uri) (child : string)
  : vscode.FileType :=
  FileStat.type
    {| FileStat.fsStat :=
         match fs_statSync fs (path_join h (vscode.fsPath uri) child) with
         | Some info => Stats.of_raw info
         | None => Stats.new
         end |}.

(** The event of kind [kind] for [filepath] under the watched [uri]. *)
Definition event_at (uri : vscode.Uri) (kind : vscode.FileChangeType) (filepath : string)
  : vscode.FileChangeEvent :=
  {| vscode.fce_type := kind; vscode.fce_uri := vscode.Uri_with_path uri filepath |}.

(** The command the specification calls the open action. *)
Definition openFile (u : vscode.Uri) : vscode.Command :=
  {| vscode.command := "fileExplorer.openFile"; vscode.title := "Open File";
     vscode.arguments := [u] |}.

(** The order the specification states for root-level children: every
    Directory before every other entry, and names ascending (by
    [localeCompare]) between two entries of the same group. *)
Definition claimed_order (h : Host) (a b : string * vscode.FileType) : Prop :=
  (snd b = vscode.Directory -> snd a = vscode.Directory) /\
  ((snd a = vscode.Directory <-> snd b = vscode.Directory) ->
   localeCompare h (fst a) (fst b) <= 0).

(** Listings whose entries are Directories or of the one other type [t]. *)
Definition Directory_or (t : vscode.FileType) (a : string * vscode.FileType) : Prop :=
  snd a = vscode.Directory \/ snd a = t.

(** ** The rest of the provider: reading a file, refreshing, revealing *)

(** How [fs.readFile(path, callback)] ends: it throws at the call, or calls
    back with an error, or with the content. *)
Inductive readFile_result : Type :=
| ReadFileThrows (code : string)
| ReadFileError (code : string)
| ReadFileOk (buffer : list Byte.byte).

(** [_.readfile(path)]: no try/catch here, so an exception of [fs.readFile]
    inside the executor rejects the promise with that error as it is; the
    callback goes through [handleResult]. *)
Definition readfile (fs_readFile : string -> readFile_result) (path : string)
  : Promise (list Byte.byte) :=
  match fs_readFile path with
  | ReadFileThrows code => Rejected (NodeError code)
  | ReadFileError code => Util.handleResult (Some code) []
  | ReadFileOk buffer => Util.handleResult None buffer
  end.

(** [FileSystemProvider.readFile(uri)] *)
Definition readFile (fs_readFile : string -> readFile_result) (uri : vscode.Uri)
  : Promise (list Byte.byte) :=
  readfile fs_readFile (vscode.fsPath uri).

(** The extension in its window: the provider, and the host commands run
    through [vscode.commands.executeCommand] so far (oldest first). *)
Record Window : Type :=
  { tree : Provider; executed : list (string * Arg) }.

(** [refreshFile(element)]: fires [_onDidChangeTreeData] with what it is
    handed. *)
Definition refreshFile (element : Arg) (this : Provider) : Provider :=
  {| onDidChangeFile := onDidChangeFile this;
     onDidChangeTreeData := (onDidChangeTreeData this ++ [element])%list |}.

(** [element.uri]: raises on [undefined]; a value without the property
    gives [undefined]. *)
Definition uri_of (element : Arg) : Error + Arg :=
  match element with
  | ArgEntry e => inr (ArgUri (uri e))
  | ArgUri _ | ArgOther => inr ArgUndefined
  | ArgUndefined => inl TypeError
  end.

(** [openFolder(element)]: [executeCommand("revealFileInOS", element.uri)];
    [None] when reading [element.uri] raises. *)
Definition openFolder (element : Arg) (w : Window) : option Window :=
  match uri_of element with
  | inr u =>
      Some {| tree := tree w;
              executed := (executed w ++ [("revealFileInOS", u)])%list |}
  | inl _ => None
  end.

(** ** class [FileExplorer] *)

Module FileExplorer.

(** [openResource(resource)]: [executeCommand("vscode.open", resource)]. *)
Definition openResource (resource : Arg) (w : Window) : Window :=
  {| tree := tree w;
     executed := (executed w ++ [("vscode.open", resource)])%list |}.

(** The commands the constructor registers, in order, each with its
    handler. The handlers are arrow functions that pass their argument on,
    whatever it is; the one of [refreshRoot] drops it. A handler gives
    [None] when it raises. *)
Definition commands : list (string * (Arg -> Window -> option Window)) :=
  [ ("fileExplorer.openFile",
     fun resource w => Some (openResource resource w));
    ("fileExplorer.refreshFile",
     fun resource w =>
       Some {| tree := refreshFile resource (tree w); executed := executed w |});
    ("fileExplorer.refreshRoot",
     fun _ w =>
       Some {| tree := refreshFile ArgUndefined (tree w); executed := executed w |});
    ("fileExplorer.openFolder",
     fun resource w => openFolder resource w) ].

(** The handler registered under [name], if any. *)
Fixpoint lookup (name : string) (registry : list (string * (Arg -> Window -> option Window)))
  : option (Arg -> Window -> option Window) :=
  match registry with
  | [] => None
  | (id, handler) :: rest => if String.eqb id name then Some handler else lookup name rest
  end.

(** [vscode.commands.executeCommand(name, resource)] for a command of the
    extension; [None] when no such command is registered or its handler
    raises. *)
Definition executeCommand (name : string) (resource : Arg) (w : Window) : option Window :=
  match lookup name commands with
  | Some handler => handler resource w
  | None => None
  end.

(** Activating a tree item: the host executes the item's command with the
    command's arguments. *)
Definition activate (item : vscode.TreeItem) (w : Window) : option Window :=
  match vscode.ti_command item with
  | Some cmd =>
      executeCommand (vscode.command cmd)
        (match vscode.arguments cmd with u :: _ => ArgUri u | [] => ArgUndefined end) w
  | None => None
  end.

(** A series of command invocations; one that is not accepted leaves the
    window as it is. *)
Definition executeAll (calls : list (string * Arg)) (w : Window) : Window :=
  fold_left (fun w call =>
               match executeCommand (fst call) (snd call) w with
               | Some w' => w'
               | None => w
               end) calls w.

End FileExplorer.

(** An invocation that is carried out: the command is one of the three
    that take any argument, or it is [openFolder] with an argument other
    than [undefined]. *)
Definition carried_out (call : string * Arg) : bool :=
  String.eqb (fst call) "fileExplorer.openFile"
  || String.eqb (fst call) "fileExplorer.refreshFile"
  || String.eqb (fst call) "fileExplorer.refreshRoot"
  || (String.eqb (fst call) "fileExplorer.openFolder"
      && match snd call with ArgUndefined => false | _ => true end).

(** The number of invocations among [calls] that are carried out. *)
Definition accepted (calls : list (string * Arg)) : nat :=
  List.length (filter carried_out calls).

(** An event that goes back to a notification of the schedule: it names
    the watched uri with the joined, normalized file name of that
    notification, and it is [Changed] exactly when the raw kind was
    ['change']. *)
Definition stems_from (h : Host) (uri : vscode.Uri) (schedule : list Action)
           (ev : vscode.FileChangeEvent) : Prop :=
  exists event filename,
    In (Notify event (Some filename)) schedule /\
    vscode.fce_uri ev =
      vscode.Uri_with_path uri
        (path_join h (vscode.fsPath uri) (Util.normalizeNFC h filename)) /\
    (vscode.fce_type ev = vscode.Changed <-> event = "change").

(** A suspended listener call that goes back to a notification of the
    schedule, of a raw kind other than ['change']. *)
Definition waits_for (h : Host) (uri : vscode.Uri) (schedule : list Action)
           (call : Suspended) : Prop :=
  exists event filename,
    In (Notify event (Some filename)) schedule /\
    event <> "change" /\
    waiting_uri call = uri /\
    waiting_filepath call =
      path_join h (vscode.fsPath uri) (Util.normalizeNFC h filename).

(** Everything fired and everything waiting goes back to the notifications
    seen so far. *)
Definition provenance (h : Host) (uri : vscode.Uri) (seen : list Action)
           (loop : EventLoop) : Prop :=
  Forall (Forall (stems_from h uri seen)) (fired loop) /\
  Forall (waits_for h uri seen) (suspended loop).

(** A darwin host, whose file names are already composed. *)
Definition darwin_host : Host :=
  {| darwin := true;
     nfc := fun s => s;
     path_join := fun a b => a ++ "/" ++ b;
     localeCompare := compare_code_points;
     filesize_fmt := fun n => NilEmpty.string_of_int (Z.to_int n) ++ " B" |}.

Definition example_readFile (p : string) : readFile_result :=
  if String.eqb p "/ws/b.txt" then ReadFileOk [Byte.x68; Byte.x69]
  else if String.eqb p "/ws/z" then ReadFileError "EISDIR"
  else if String.eqb p "/locked/f" then ReadFileError "EACCES"
  else ReadFileError "ENOENT".

Definition empty_window : Window :=
  {| tree := {| onDidChangeFile := []; onDidChangeTreeData := [] |}; executed := [] |}.

(** * Properties *)

Lemma FileType_eqb_eq (a b : vscode.FileType) :
  vscode.FileType_eqb a b = true <-> a = b.
Proof.
  unfold vscode.FileType_eqb.
  destruct a, b; simpl; split; intro H; try reflexivity; discriminate H.
Qed.

(** ** Stat descriptors *)

Section StatDescriptor.

Import vscode.

Lemma checkModeProperty_unique (s : Stats.t) (p q : Z) :
  Stats.checkModeProperty s p = true ->
  Stats.checkModeProperty s q = true -> p = q.
Proof.
  unfold Stats.checkModeProperty. intros Hp Hq.
  apply Z.eqb_eq in Hp. apply Z.eqb_eq in Hq. congruence.
Qed.

Lemma isFile_not_isDirectory (s : Stats.t) :
  Stats.isFile s && Stats.isDirectory s = false.
Proof.
  destruct (Stats.isFile s) eqn:Hf; [|reflexivity].
  destruct (Stats.isDirectory s) eqn:Hd; [|reflexivity].
  pose proof (checkModeProperty_unique s _ _ Hf Hd) as H. discriminate H.
Qed.

Lemma isFile_not_isSymbolicLink (s : Stats.t) :
  Stats.isFile s && Stats.isSymbolicLink s = false.
Proof.
  destruct (Stats.isFile s) eqn:Hf; [|reflexivity].
  destruct (Stats.isSymbolicLink s) eqn:Hd; [|reflexivity].
  pose proof (checkModeProperty_unique s _ _ Hf Hd) as H. discriminate H.
Qed.

Lemma isDirectory_not_isSymbolicLink (s : Stats.t) :
  Stats.isDirectory s && Stats.isSymbolicLink s = false.
Proof.
  destruct (Stats.isDirectory s) eqn:Hf; [|reflexivity].
  destruct (Stats.isSymbolicLink s) eqn:Hd; [|reflexivity].
  pose proof (checkModeProperty_unique s _ _ Hf Hd) as H. discriminate H.
Qed.

(** C9. For every [fs.Stats] record, the [FileStat] built from it has at
    most one of [isFile], [isDirectory], [isSymbolicLink] true, and its
    type tag agrees with the flags: each flag is true exactly when the tag
    is the corresponding type, and the tag is [Unknown] exactly when no
    flag is true. *)
Theorem FileStat_flags_exclusive_and_type_consistent (s : Stats.t) :
  let d := {| FileStat.fsStat := s |} in
  FileStat.isFile d && FileStat.isDirectory d = false /\
  FileStat.isFile d && FileStat.isSymbolicLink d = false /\
  FileStat.isDirectory d && FileStat.isSymbolicLink d = false /\
  FileStat.isFile d = FileType_eqb (FileStat.type d) File /\
  FileStat.isDirectory d = FileType_eqb (FileStat.type d) Directory /\
  FileStat.isSymbolicLink d = FileType_eqb (FileStat.type d) SymbolicLink /\
  negb (FileStat.isFile d || FileStat.isDirectory d || FileStat.isSymbolicLink d)
    = FileType_eqb (FileStat.type d) Unknown.
Proof.
  intro d. unfold d, FileStat.isFile, FileStat.isDirectory,
    FileStat.isSymbolicLink, FileStat.type. cbn [FileStat.fsStat].
  pose proof (isFile_not_isDirectory s) as Hfd.
  pose proof (isFile_not_isSymbolicLink s) as Hfl.
  pose proof (isDirectory_not_isSymbolicLink s) as Hdl.
  destruct (Stats.isFile s), (Stats.isDirectory s), (Stats.isSymbolicLink s);
    try discriminate; repeat split; reflexivity.
Qed.

Lemma new_Stats_flags :
  Stats.isFile Stats.new = false /\ Stats.isDirectory Stats.new = false /\
  Stats.isSymbolicLink Stats.new = false.
Proof. repeat split; reflexivity. Qed.

Lemma _stat_resolves (fs : FS) (path : string) :
  FileSystemProvider._stat fs path =
  Resolved {| FileStat.fsStat :=
                match fs_statSync fs path with
                | Some info => Stats.of_raw info
                | Datatypes.None => Stats.new
                end |}.
Proof.
  unfold FileSystemProvider._stat, Util.stat.
  destruct (fs_statSync fs path); reflexivity.
Qed.

(** C5, what the code does. [stat] never raises: for every path the
    promise resolves. When the path cannot be statted the descriptor has
    type [Unknown] and the three flags false, but its size is [undefined]
    and its time stamps are [NaN], not 0. *)
Theorem stat_of_unstatable_path (fs : FS) (u : Uri) :
  (exists d, FileSystemProvider.stat fs u = Resolved d) /\
  (fs_statSync fs (fsPath u) = Datatypes.None ->
   exists d, FileSystemProvider.stat fs u = Resolved d /\
     FileStat.type d = Unknown /\
     FileStat.isFile d = false /\ FileStat.isDirectory d = false /\
     FileStat.isSymbolicLink d = false /\
     FileStat.size d = JUndefined /\
     FileStat.ctime d = JNaN /\ FileStat.mtime d = JNaN).
Proof.
  unfold FileSystemProvider.stat. rewrite _stat_resolves. split.
  - eexists; reflexivity.
  - intros Hnone. rewrite Hnone. eexists. split; [reflexivity|].
    repeat split; reflexivity.
Qed.

Lemma stat_of_unstatable_path_witness :
  exists d, FileSystemProvider.stat example_fs (Uri_file "/ws/z/gone") = Resolved d /\
     FileStat.type d = Unknown /\
     FileStat.isFile d = false /\ FileStat.isDirectory d = false /\
     FileStat.isSymbolicLink d = false /\
     FileStat.size d = JUndefined /\
     FileStat.ctime d = JNaN /\ FileStat.mtime d = JNaN.
Proof.
  apply (proj2 (stat_of_unstatable_path example_fs (Uri_file "/ws/z/gone"))).
  reflexivity.
Defined.

End StatDescriptor.


(** ** The change watcher *)

Section ChangeWatcher.

Import vscode.

Variable h : Host.
Variable uri : Uri.

Lemma step_Notify_nameless (options : WatchOptions) (event : string) (loop : EventLoop) :
  step (FileSystemProvider.watch h uri options) (Notify event Datatypes.None) loop = loop.
Proof. reflexivity. Qed.

Lemma step_Notify (options : WatchOptions) (event filename : string) (loop : EventLoop) :
  let filepath := path_join h (fsPath uri) (Util.normalizeNFC h filename) in
  step (FileSystemProvider.watch h uri options) (Notify event (Some filename)) loop =
  if String.eqb event "change" then
    {| provider := fire_onDidChangeFile (provider loop) [event_at uri Changed filepath];
       suspended := suspended loop |}
  else
    {| provider := provider loop;
       suspended := (suspended loop ++
                     [{| waiting_uri := uri; waiting_filepath := filepath |}])%list |}.
Proof. reflexivity. Qed.

Lemma step_ExistsSettled (w : FSWatcher) (i : nat) (fs : FS) (loop : EventLoop)
      (call : Suspended) :
  nth_error (suspended loop) i = Some call ->
  step w (ExistsSettled i fs) loop =
  {| provider :=
       fire_onDidChangeFile (provider loop)
         [{| fce_type := if fs_access fs (waiting_filepath call) then Created else Deleted;
             fce_uri := Uri_with_path (waiting_uri call) (waiting_filepath call) |}];
     suspended := without_nth i (suspended loop) |}.
Proof.
  intros Hcall. simpl. unfold resume. rewrite Hcall.
  unfold Util.exists_. destruct (fs_access fs (waiting_filepath call)); reflexivity.
Qed.

Lemma without_nth_length {A : Type} (i : nat) (l : list A) (x : A) :
  nth_error l i = Some x -> S (List.length (without_nth i l)) = List.length l.
Proof.
  revert l. induction i as [|i IH]; intros [|y l] H; simpl in H; try discriminate.
  - reflexivity.
  - unfold without_nth in *. simpl. f_equal. now apply IH.
Qed.

(** One step fires at most one payload, of one event, and keeps the count
    of fired payloads plus suspended calls in line with the notifications. *)
Lemma step_count (options : WatchOptions) (a : Action) (loop : EventLoop) :
  let loop' := step (FileSystemProvider.watch h uri options) a loop in
  (List.length (fired loop') + List.length (suspended loop') =
   List.length (fired loop) + List.length (suspended loop) + notifications [a])%nat /\
  (Forall (fun payload => List.length payload = 1%nat) (fired loop) ->
   Forall (fun payload => List.length payload = 1%nat) (fired loop')).
Proof.
  destruct a as [event [filename|]|i fs].
  - intro loop'. unfold loop'. rewrite step_Notify.
    destruct (String.eqb event "change"); unfold fired, notifications; simpl.
    + rewrite List.length_app. simpl. split; [lia|].
      intros Hone. apply Forall_app. split; [assumption|]. now repeat constructor.
    + rewrite List.length_app. simpl. split; [lia|]. trivial.
  - intro loop'. unfold loop'. rewrite step_Notify_nameless.
    unfold notifications. simpl. split; [lia|trivial].
  - intro loop'. unfold loop'.
    destruct (nth_error (suspended loop) i) as [call|] eqn:Hcall.
    + rewrite (step_ExistsSettled _ i fs loop call Hcall).
      pose proof (without_nth_length i (suspended loop) call Hcall) as Hlen.
      unfold fired, notifications; simpl. rewrite List.length_app. simpl.
      split; [lia|].
      intros Hone. apply Forall_app. split; [assumption|]. now repeat constructor.
    + simpl. unfold resume. rewrite Hcall. unfold notifications. simpl.
      split; [lia|trivial].
Qed.

Lemma notifications_cons (a : Action) (schedule : list Action) :
  notifications (a :: schedule) = (notifications [a] + notifications schedule)%nat.
Proof. unfold notifications. simpl. destruct a as [event [filename|]|i fs]; reflexivity. Qed.

Lemma run_count (options : WatchOptions) (schedule : list Action) :
  forall loop : EventLoop,
    let loop' := run (FileSystemProvider.watch h uri options) schedule loop in
    (List.length (fired loop') + List.length (suspended loop') =
     List.length (fired loop) + List.length (suspended loop) + notifications schedule)%nat /\
    (Forall (fun payload => List.length payload = 1%nat) (fired loop) ->
     Forall (fun payload => List.length payload = 1%nat) (fired loop')).
Proof.
  induction schedule as [|a schedule IH]; intro loop.
  - simpl. unfold notifications. simpl. split; [lia|trivial].
  - simpl. specialize (IH (step (FileSystemProvider.watch h uri options) a loop)).
    destruct IH as [IHn IHone].
    destruct (step_count options a loop) as [Hn Hone].
    rewrite notifications_cons. split; [lia|]. intros H0. apply IHone, Hone, H0.
Qed.



(** C10. The [excludes] option has no effect: two subscriptions on the
    same uri with the same [recursive] flag watch the same path in the same
    mode and, under the same schedule of notifications and completions,
    drive the provider through the same states; no notification is dropped,
    whatever [excludes] lists: fired payloads plus waiting calls grow by the
    number of notifications (those that report a file name). *)
Theorem watch_ignores_excludes
        (r : bool) (excludes1 excludes2 : list string)
        (schedule : list Action) (loop : EventLoop) :
  let w1 := FileSystemProvider.watch h uri {| recursive := r; excludes := excludes1 |} in
  let w2 := FileSystemProvider.watch h uri {| recursive := r; excludes := excludes2 |} in
  watched_path w1 = watched_path w2 /\
  watched_recursive w1 = watched_recursive w2 /\
  run w1 schedule loop = run w2 schedule loop /\
  (List.length (fired (run w1 schedule loop)) + List.length (suspended (run w1 schedule loop)) =
   List.length (fired loop) + List.length (suspended loop) + notifications schedule)%nat.
Proof.
  intros w1 w2. repeat split.
  apply (run_count {| recursive := r; excludes := excludes1 |} schedule loop).
Qed.

End ChangeWatcher.

(** A rename notification for [a.txt] (which exists), a change notification
    for [b.txt], a notification without a file name, a rename notification
    for [old.txt] (which does not exist), and then the two existence checks
    completing, the later one first. *)
Example watch_schedule_example :
  fired (run (FileSystemProvider.watch posix_host ws_uri
                {| recursive := true; excludes := ["a.txt"] |})
             [Notify "rename" (Some "a.txt"); Notify "change" (Some "b.txt");
              Notify "change" None; Notify "rename" (Some "old.txt");
              ExistsSettled 1 example_fs; ExistsSettled 0 example_fs]
             idle) =
  [ [event_at ws_uri vscode.Changed "/ws/b.txt"];
    [event_at ws_uri vscode.Deleted "/ws/old.txt"];
    [event_at ws_uri vscode.Created "/ws/a.txt"] ].
Proof. reflexivity. Qed.



(** ** Directory listing *)

Section ReadDirectory.

Import vscode.

Variable h : Host.
Variable fs : FS.
Variable uri : Uri.

Lemma readDirectory_loop_spec (children : list string) :
  forall result,
    FileSystemProvider.readDirectory_loop h fs uri children result =
    Resolved (result ++ map (fun c => (c, child_type h fs uri c)) children)%list.
Proof.
  induction children as [|c rest IH]; intro result; simpl.
  - now rewrite app_nil_r.
  - rewrite _stat_resolves. simpl. rewrite IH, <- app_assoc. reflexivity.
Qed.

Lemma readdir_ok (children : list string) :
  fs_readdir fs (fsPath uri) = ReaddirOk children ->
  Util.readdir h fs (fsPath uri) = Resolved (listed_names h children).
Proof.
  intros H. unfold Util.readdir, Util.readdir_callback, Util.normalizeNFC_items, listed_names.
  rewrite H. destruct (darwin h); reflexivity.
Qed.

Lemma readdir_error (code : string) :
  fs_readdir fs (fsPath uri) = ReaddirError code ->
  Util.readdir h fs (fsPath uri) =
  if darwin h then Pending else Rejected (Util.massageError code).
Proof.
  intros H. unfold Util.readdir, Util.readdir_callback, Util.normalizeNFC_items.
  rewrite H. destruct (darwin h); reflexivity.
Qed.

Lemma massageError_FileNotFound (code : string) :
  Util.massageError code = FileSystemError FileNotFound <-> code = "ENOENT".
Proof.
  unfold Util.massageError. split.
  - destruct (String.eqb_spec code "ENOENT") as [E|_]; [trivial|].
    destruct (String.eqb code "EISDIR"); [discriminate|].
    destruct (String.eqb code "EEXIST"); [discriminate|].
    destruct (String.eqb code "EPERM" || String.eqb code "EACCESS" || String.eqb code "EBUSY");
      discriminate.
  - intros ->. reflexivity.
Qed.

Lemma readDirectory_cases :
  match fs_readdir fs (fsPath uri) with
  | ReaddirThrows => FileSystemProvider.readDirectory h fs uri = Pending
  | ReaddirError code =>
      FileSystemProvider.readDirectory h fs uri =
      if darwin h then Pending else Rejected (Util.massageError code)
  | ReaddirOk children =>
      FileSystemProvider.readDirectory h fs uri =
      Resolved (map (fun c => (c, child_type h fs uri c)) (listed_names h children))
  end.
Proof.
  unfold FileSystemProvider.readDirectory, FileSystemProvider._readDirectory.
  destruct (fs_readdir fs (fsPath uri)) as [|code|children] eqn:E.
  - unfold Util.readdir. rewrite E. reflexivity.
  - rewrite (readdir_error code E). destruct (darwin h); reflexivity.
  - rewrite (readdir_ok children E). simpl. apply readDirectory_loop_spec.
Qed.

(** C6, as the code has it. [readDirectory] is rejected only when the
    listing itself failed, and then with the massaged listing error, which
    is NotFound exactly for the code ENOENT (other codes give
    FileIsADirectory, FileExists, NoPermissions, or the error unchanged).
    Off darwin every listing error delivered to the callback rejects it so.
    When the listing succeeds every listed name is returned, in order, with
    the tag of its stat, and a child that cannot be statted is tagged
    [Unknown]. *)
Theorem readDirectory_fails_only_with_the_listing :
  (forall e, FileSystemProvider.readDirectory h fs uri = Rejected e ->
     exists code, fs_readdir fs (fsPath uri) = ReaddirError code /\
                  e = Util.massageError code) /\
  (FileSystemProvider.readDirectory h fs uri = Rejected (FileSystemError FileNotFound) ->
     fs_readdir fs (fsPath uri) = ReaddirError "ENOENT") /\
  (forall code, darwin h = false ->
     fs_readdir fs (fsPath uri) = ReaddirError code ->
     FileSystemProvider.readDirectory h fs uri = Rejected (Util.massageError code) /\
     (Util.massageError code = FileSystemError FileNotFound <-> code = "ENOENT")) /\
  (forall children, fs_readdir fs (fsPath uri) = ReaddirOk children ->
     FileSystemProvider.readDirectory h fs uri =
       Resolved (map (fun c => (c, child_type h fs uri c)) (listed_names h children)) /\
     forall c, In c (listed_names h children) ->
       fs_statSync fs (path_join h (fsPath uri) c) = Datatypes.None ->
       child_type h fs uri c = Unknown).
Proof.
  pose proof readDirectory_cases as Hc.
  assert (Hrej : forall e, FileSystemProvider.readDirectory h fs uri = Rejected e ->
     exists code, fs_readdir fs (fsPath uri) = ReaddirError code /\
                  e = Util.massageError code).
  { intros e He. destruct (fs_readdir fs (fsPath uri)) as [|code|children].
    - rewrite Hc in He. discriminate.
    - rewrite Hc in He. destruct (darwin h); [discriminate|].
      exists code. split; [reflexivity|]. now inversion He.
    - rewrite Hc in He. discriminate. }
  split; [exact Hrej|]. split; [|split].
  - intros He. destruct (Hrej _ He) as [code [Hl Hm]].
    symmetry in Hm. apply massageError_FileNotFound in Hm. now subst code.
  - intros code Hd Hl. rewrite Hl, Hd in Hc. split; [exact Hc|].
    apply massageError_FileNotFound.
  - intros children Hl. rewrite Hl in Hc. split; [exact Hc|].
    intros c _ Hs. unfold child_type. rewrite Hs. reflexivity.
Qed.

End ReadDirectory.

(** C6 as stated fails: a listing that fails with EPERM makes
    [readDirectory] fail with NoPermissions, not with NotFound. *)
Lemma readDirectory_listing_failure_not_NotFound :
  fs_readdir example_fs "/locked" = ReaddirError "EPERM" /\
  FileSystemProvider.readDirectory posix_host example_fs (vscode.Uri_file "/locked")
    = Rejected (FileSystemError NoPermissions) /\
  FileSystemProvider.readDirectory posix_host example_fs (vscode.Uri_file "/locked")
    <> Rejected (FileSystemError FileNotFound).
Proof.
  split; [reflexivity|]. split; [reflexivity|]. discriminate.
Qed.

Lemma readDirectory_fails_only_with_the_listing_witness :
  FileSystemProvider.readDirectory posix_host example_fs (vscode.Uri_file "/ws/z") =
    Resolved [("n", vscode.File); ("gone", vscode.Unknown)] /\
  FileSystemProvider.readDirectory posix_host example_fs (vscode.Uri_file "/missing") =
    Rejected (FileSystemError FileNotFound).
Proof.
  split.
  - destruct (readDirectory_fails_only_with_the_listing posix_host example_fs
                (vscode.Uri_file "/ws/z")) as (_ & _ & _ & Hok).
    exact (proj1 (Hok ["n"; "gone"] eq_refl)).
  - destruct (readDirectory_fails_only_with_the_listing posix_host example_fs
                (vscode.Uri_file "/missing")) as (_ & _ & Herr & _).
    exact (proj1 (Herr "ENOENT" eq_refl eq_refl)).
Defined.


(** ** Workspace roots *)

Section WorkspaceRoots.

Import vscode.

Variable h : Host.
Variable fs : FS.


End WorkspaceRoots.

(** ** Display descriptors and sizes *)

Section DisplayDescriptor.

Import vscode.

Variable h : Host.
Variable fs : FS.

Lemma getTreeItem_File (element : Entry) :
  type element = File ->
  FileSystemProvider.getTreeItem h fs element =
  match fs_statSync fs (fsPath (uri element)) with
  | Some info =>
      Resolved {| resourceUri := uri element; collapsibleState := None;
                  ti_command := Some (openFile (uri element));
                  contextValue := Some "file";
                  description :=
                    Some (" -  " ++ filesize_fmt h (st_size info) ++ " - (" ++
                          filesize_fmt h (FileSystemProvider._getGzipSize fs (fsPath (uri element)))
                          ++ ")")%string |}
  | Datatypes.None => Rejected TypeError
  end.
Proof.
  intros Ht. unfold FileSystemProvider.getTreeItem, FileSystemProvider.stat.
  rewrite Ht, _stat_resolves. simpl.
  destruct (fs_statSync fs (fsPath (uri element))); reflexivity.
Qed.

Lemma getTreeItem_Directory (element : Entry) :
  type element = Directory ->
  FileSystemProvider.getTreeItem h fs element =
  match FileSystemProvider._getDirSize fs (fsPath (uri element)) with
  | Resolved (JNum n) =>
      Resolved {| resourceUri := uri element; collapsibleState := Collapsed;
                  ti_command := Datatypes.None; contextValue := Datatypes.None;
                  description := Some (" - " ++ filesize_fmt h n)%string |}
  | Resolved _ => Rejected TypeError
  | Rejected e => Rejected e
  | Pending => Pending
  end.
Proof.
  intros Ht. unfold FileSystemProvider.getTreeItem. rewrite Ht. simpl.
  destruct (FileSystemProvider._getDirSize fs (fsPath (uri element))) as [[n| |]|e|];
    reflexivity.
Qed.

Lemma getTreeItem_other (element : Entry) :
  type element <> File -> type element <> Directory ->
  FileSystemProvider.getTreeItem h fs element =
  Resolved {| resourceUri := uri element; collapsibleState := None;
              ti_command := Datatypes.None; contextValue := Datatypes.None;
              description := Datatypes.None |}.
Proof.
  intros Hf Hd. unfold FileSystemProvider.getTreeItem.
  destruct (type element); try congruence; reflexivity.
Qed.

Lemma _getDirSize_cases (path : string) :
  FileSystemProvider._getDirSize fs path =
  Resolved match fastFolderSize fs path with
           | FolderSizeOk n => JNum n
           | FolderSizeError => JUndefined
           | FolderSizeThrows => JNum 0
           end.
Proof.
  unfold FileSystemProvider._getDirSize. destruct (fastFolderSize fs path); reflexivity.
Qed.

(** C2. For a File node whose path can be statted, [getTreeItem] returns a
    descriptor that is not expandable and carries the open-file command with
    the node's uri and the annotation of the file's stat size and its
    compressed-size estimate (the result of [gzipSize.fileSync], 0 when that
    fails). For a Directory node whose size [fastFolderSize] reports, it
    returns an expandable descriptor with no command and the annotation of
    that size alone. For a node of any other type it returns a descriptor
    that is not expandable and has neither command nor annotation. Every
    descriptor [getTreeItem] returns is of one of these forms: expandable
    exactly when the node is a Directory. *)
Theorem getTreeItem_descriptor (element : Entry) :
  let path := fsPath (uri element) in
  let estimate := match gzipSize_fileSync fs path with
                  | Some n => n
                  | Datatypes.None => 0
                  end in
  (type element = File ->
     forall info, fs_statSync fs path = Some info ->
     FileSystemProvider.getTreeItem h fs element =
     Resolved {| resourceUri := uri element; collapsibleState := None;
                 ti_command := Some (openFile (uri element));
                 contextValue := Some "file";
                 description :=
                   Some (" -  " ++ filesize_fmt h (st_size info) ++ " - (" ++
                         filesize_fmt h estimate ++ ")")%string |}) /\
  (type element = Directory ->
     forall n, fastFolderSize fs path = FolderSizeOk n ->
     FileSystemProvider.getTreeItem h fs element =
     Resolved {| resourceUri := uri element; collapsibleState := Collapsed;
                 ti_command := Datatypes.None; contextValue := Datatypes.None;
                 description := Some (" - " ++ filesize_fmt h n)%string |}) /\
  (type element <> File -> type element <> Directory ->
     FileSystemProvider.getTreeItem h fs element =
     Resolved {| resourceUri := uri element; collapsibleState := None;
                 ti_command := Datatypes.None; contextValue := Datatypes.None;
                 description := Datatypes.None |}) /\
  (forall item, FileSystemProvider.getTreeItem h fs element = Resolved item ->
     resourceUri item = uri element /\
     (collapsibleState item = Collapsed <-> type element = Directory) /\
     (type element = File ->
        ti_command item = Some (openFile (uri element)) /\
        exists info, fs_statSync fs path = Some info /\
          description item =
            Some (" -  " ++ filesize_fmt h (st_size info) ++ " - (" ++
                  filesize_fmt h estimate ++ ")")%string) /\
     (type element = Directory ->
        ti_command item = Datatypes.None /\
        exists n,
          (fastFolderSize fs path = FolderSizeOk n \/
           (fastFolderSize fs path = FolderSizeThrows /\ n = 0)) /\
          description item = Some (" - " ++ filesize_fmt h n)%string) /\
     (type element <> File -> type element <> Directory ->
        ti_command item = Datatypes.None /\ description item = Datatypes.None)).
Proof.
  cbv zeta. split; [|split; [|split]].
  - intros Ht info Hs. rewrite (getTreeItem_File element Ht), Hs. reflexivity.
  - intros Ht n Hn. rewrite (getTreeItem_Directory element Ht), _getDirSize_cases, Hn.
    reflexivity.
  - intros Hf Hd. apply (getTreeItem_other element Hf Hd).
  - intros item Hitem. destruct (type element) eqn:Ht.
    + rewrite getTreeItem_other in Hitem by congruence.
      inversion Hitem; subst item; clear Hitem. cbn.
      split; [reflexivity|]. split; [split; discriminate|].
      split; [discriminate|]. split; [discriminate|]. intros _ _. split; reflexivity.
    + rewrite (getTreeItem_File element Ht) in Hitem.
      destruct (fs_statSync fs (fsPath (uri element))) as [info|] eqn:Hs; [|discriminate].
      inversion Hitem; subst item; clear Hitem. cbn.
      split; [reflexivity|]. split; [split; discriminate|].
      split; [|split; [discriminate|intros Hc; now elim Hc]].
      intros _. split; [reflexivity|]. exists info. split; reflexivity.
    + rewrite (getTreeItem_Directory element Ht), _getDirSize_cases in Hitem.
      destruct (fastFolderSize fs (fsPath (uri element))) as [| |n] eqn:Hd;
        try discriminate.
      * inversion Hitem; subst item; clear Hitem. cbn.
        split; [reflexivity|]. split; [split; reflexivity|].
        split; [discriminate|]. split; [|intros _ Hc; now elim Hc].
        intros _. split; [reflexivity|]. exists 0. split; [right; now split|reflexivity].
      * inversion Hitem; subst item; clear Hitem. cbn.
        split; [reflexivity|]. split; [split; reflexivity|].
        split; [discriminate|]. split; [|intros _ Hc; now elim Hc].
        intros _. split; [reflexivity|]. exists n. split; [now left|reflexivity].
    + rewrite getTreeItem_other in Hitem by congruence.
      inversion Hitem; subst item; clear Hitem. cbn.
      split; [reflexivity|]. split; [split; discriminate|].
      split; [discriminate|]. split; [discriminate|]. intros _ _. split; reflexivity.
Qed.

(** C3, what the code does. A failing compressed-size estimate is degraded
    to 0, and so is a directory-size call that throws. But a directory-size
    computation that reports its failure through the callback resolves with
    [undefined], and a file that cannot be statted has size [undefined]; in
    both cases formatting the size raises and [getTreeItem] is rejected. *)
Theorem size_failures_reach_the_descriptor (element : Entry) :
  let path := fsPath (uri element) in
  (gzipSize_fileSync fs path = Datatypes.None ->
     FileSystemProvider._getGzipSize fs path = 0) /\
  (fastFolderSize fs path = FolderSizeThrows ->
     FileSystemProvider._getDirSize fs path = Resolved (JNum 0)) /\
  (fastFolderSize fs path = FolderSizeError ->
     FileSystemProvider._getDirSize fs path = Resolved JUndefined /\
     (type element = Directory ->
        FileSystemProvider.getTreeItem h fs element = Rejected TypeError)) /\
  (fs_statSync fs path = Datatypes.None -> type element = File ->
     FileSystemProvider.getTreeItem h fs element = Rejected TypeError).
Proof.
  intro path. unfold path. split; [|split; [|split]].
  - intros Hg. unfold FileSystemProvider._getGzipSize. now rewrite Hg.
  - intros Hf. now rewrite _getDirSize_cases, Hf.
  - intros Hf. rewrite _getDirSize_cases, Hf. split; [reflexivity|].
    intros Ht. now rewrite (getTreeItem_Directory element Ht), _getDirSize_cases, Hf.
  - intros Hs Ht. now rewrite (getTreeItem_File element Ht), Hs.
Qed.


End DisplayDescriptor.


(** ** Children and their order *)

Section ArraySortFacts.

Context {A : Type} (compare : A -> A -> Z).

Lemma sort_insert_In (pivot x : A) (placed : list A) :
  In x (sort_insert compare pivot placed) <-> x = pivot \/ In x placed.
Proof.
  induction placed as [|y rest IH]; simpl.
  - intuition congruence.
  - destruct (compare pivot y <? 0); simpl; [intuition congruence|].
    rewrite IH. intuition congruence.
Qed.

Lemma sort_insert_Forall (P : A -> Prop) (pivot : A) (placed : list A) :
  P pivot -> Forall P placed -> Forall P (sort_insert compare pivot placed).
Proof.
  intros Hp Hl. apply Forall_forall. intros x Hx.
  apply sort_insert_In in Hx as [->|Hx]; [assumption|].
  rewrite Forall_forall in Hl. now apply Hl.
Qed.

End ArraySortFacts.

Section ChildrenOrder.

Import vscode.

Variable h : Host.

(** X5. With a parent given, the children are the listing, entry by entry, in
    the listing's order. *)
Lemma getChildren_of_parent_in_listing_order
      (fs : FS) (folders : list WorkspaceFolder) (element : Entry) (children : list string) :
  fs_readdir fs (fsPath (uri element)) = ReaddirOk children ->
  FileSystemProvider.getChildren h fs (Some folders) (Some element) =
  Resolved (map (fun c => {| uri := Uri_file (path_join h (fsPath (uri element)) c);
                             type := child_type h fs (uri element) c |})
                (listed_names h children)).
Proof.
  intros Hl. unfold FileSystemProvider.getChildren.
  pose proof (readDirectory_cases h fs (uri element)) as Hc. rewrite Hl in Hc.
  rewrite Hc. simpl. rewrite map_map. reflexivity.
Qed.

(** X8. The comparator is not a consistent one: two entries of different
    types, neither a Directory, are each reported greater than the other. *)
Lemma compareChildren_inconsistent (a b : string * FileType) :
  snd a <> snd b -> snd a <> Directory -> snd b <> Directory ->
  FileSystemProvider.compareChildren h a b = 1 /\
  FileSystemProvider.compareChildren h b a = 1.
Proof.
  intros Hab Ha Hb. unfold FileSystemProvider.compareChildren.
  destruct a as [na ta], b as [nb tb]; simpl in *.
  destruct ta, tb; try congruence; split; reflexivity.
Qed.

(** Where [localeCompare] is a total preorder, a root listing of
    Directories and entries of one other type comes out in the stated
    order. *)
Hypothesis localeCompare_total :
  forall a b, 0 <= localeCompare h a b -> localeCompare h b a <= 0.
Hypothesis localeCompare_trans :
  forall a b c, localeCompare h a b <= 0 -> localeCompare h b c <= 0 ->
                localeCompare h a c <= 0.

Variable t : FileType.

Lemma compareChildren_negative (a b : string * FileType) :
  FileSystemProvider.compareChildren h a b < 0 ->
  (snd a = snd b /\ localeCompare h (fst a) (fst b) < 0) \/
  (snd a = Directory /\ snd b <> Directory).
Proof.
  unfold FileSystemProvider.compareChildren.
  destruct (FileType_eqb (snd a) (snd b)) eqn:E.
  - apply FileType_eqb_eq in E. auto.
  - destruct (FileType_eqb (snd a) Directory) eqn:D; [|lia].
    apply FileType_eqb_eq in D. intros _. right. split; [assumption|].
    intros Hb. rewrite D, Hb in E. discriminate E.
Qed.

Lemma compareChildren_nonnegative (a b : string * FileType) :
  0 <= FileSystemProvider.compareChildren h a b ->
  (snd a = snd b /\ 0 <= localeCompare h (fst a) (fst b)) \/
  (snd a <> snd b /\ snd a <> Directory).
Proof.
  unfold FileSystemProvider.compareChildren.
  destruct (FileType_eqb (snd a) (snd b)) eqn:E.
  - apply FileType_eqb_eq in E. auto.
  - destruct (FileType_eqb (snd a) Directory) eqn:D; [lia|].
    intros _. right. split.
    + intros Hab. apply FileType_eqb_eq in Hab. congruence.
    + intros Ha. apply FileType_eqb_eq in Ha. congruence.
Qed.

Lemma sort_insert_claimed_order (pivot : string * FileType) (placed : list (string * FileType)) :
  Directory_or t pivot -> Forall (Directory_or t) placed ->
  StronglySorted (claimed_order h) placed ->
  StronglySorted (claimed_order h)
                 (sort_insert (FileSystemProvider.compareChildren h) pivot placed).
Proof.
  intros Hp Hall Hs. induction Hs as [|x rest Hrest IH Hx]; simpl.
  - repeat constructor.
  - inversion Hall as [|? ? Htx Hallrest]; subst.
    destruct (Z.ltb_spec (FileSystemProvider.compareChildren h pivot x) 0) as [Hlt|Hge].
    + constructor; [constructor; assumption|].
      rewrite Forall_forall in Hx.
      assert (Hpx : claimed_order h pivot x).
      { apply compareChildren_negative in Hlt as [[Ht Hl]|[Hd Hn]]; split.
        - congruence.
        - intros _. lia.
        - intros Hxd. contradiction.
        - intros [Hi _]. elim Hn. now apply Hi. }
      constructor; [exact Hpx|].
      apply Forall_forall. intros y Hy. specialize (Hx y Hy).
      destruct Hx as [Hx1 Hx2], Hpx as [Hp1 Hp2].
      apply compareChildren_negative in Hlt as [[Ht Hl]|[Hd Hn]]; split.
      * intros Hyd. rewrite Ht. auto.
      * intros Hg. apply localeCompare_trans with (fst x); [lia|].
        apply Hx2. rewrite <- Ht. exact Hg.
      * intros Hyd. elim Hn. auto.
      * intros [Hi _]. elim Hn. apply Hx1. now apply Hi.
    + constructor; [apply IH; assumption|].
      apply Forall_forall. intros y Hy.
      apply sort_insert_In in Hy as [->|Hy].
      * apply compareChildren_nonnegative in Hge as [[Ht Hl]|[Hd Hn]]; split.
        -- congruence.
        -- intros _. now apply localeCompare_total.
        -- intros Hpd. contradiction.
        -- intros [Hi _]. destruct Hp as [Hp|Hp]; [contradiction|].
           destruct Htx as [Htx|Htx]; [elim Hn; now apply Hi|]. congruence.
      * rewrite Forall_forall in Hx. now apply Hx.
Qed.

Lemma Array_sort_claimed_order (l : list (string * FileType)) :
  Forall (Directory_or t) l ->
  StronglySorted (claimed_order h) (Array_sort (FileSystemProvider.compareChildren h) l).
Proof.
  unfold Array_sort.
  assert (G : forall placed, Forall (Directory_or t) placed ->
            StronglySorted (claimed_order h) placed ->
            Forall (Directory_or t) l ->
            StronglySorted (claimed_order h)
              (fold_left (fun placed pivot =>
                 sort_insert (FileSystemProvider.compareChildren h) pivot placed) l placed)).
  { induction l as [|x l IH]; intros placed Hp Hs Hl; simpl; [assumption|].
    inversion Hl; subst. apply IH.
    - now apply sort_insert_Forall.
    - now apply sort_insert_claimed_order.
    - assumption. }
  intros Hl. apply G; [constructor|constructor|assumption].
Qed.

Lemma Array_sort_Permutation (l : list (string * FileType)) :
  Permutation (Array_sort (FileSystemProvider.compareChildren h) l) l.
Proof.
  unfold Array_sort.
  assert (Hins : forall pivot placed,
            Permutation (sort_insert (FileSystemProvider.compareChildren h) pivot placed)
                        (pivot :: placed)).
  { intros pivot placed. induction placed as [|x rest IH]; simpl; [reflexivity|].
    destruct (FileSystemProvider.compareChildren h pivot x <? 0); [reflexivity|].
    rewrite IH. apply perm_swap. }
  assert (G : forall placed,
            Permutation (fold_left (fun placed pivot =>
                 sort_insert (FileSystemProvider.compareChildren h) pivot placed) l placed)
              (placed ++ l)%list).
  { induction l as [|x l IH]; intro placed; simpl.
    - now rewrite app_nil_r.
    - rewrite IH, Hins. simpl. apply Permutation_middle. }
  apply (G []).
Qed.

(** X7. Where [localeCompare] is a total preorder and the root listing
    holds Directories and entries of one other type only, the root children
    are the listing rearranged into the stated order: Directories first,
    names ascending within each group. *)
Lemma getChildren_root_in_claimed_order
      (fs : FS) (root : WorkspaceFolder) (children : list string) :
  FileSystemProvider.is_file_root root = true ->
  fs_readdir fs (fsPath (wf_uri root)) = ReaddirOk children ->
  Forall (fun c => Directory_or t (c, child_type h fs (wf_uri root) c))
         (listed_names h children) ->
  exists sorted,
    FileSystemProvider.getChildren h fs (Some [root]) Datatypes.None =
      Resolved (map (FileSystemProvider.toEntry h (fsPath (wf_uri root))) sorted) /\
    Permutation sorted
      (map (fun c => (c, child_type h fs (wf_uri root) c)) (listed_names h children)) /\
    StronglySorted (claimed_order h) sorted.
Proof.
  intros Hr Hl Ht. unfold FileSystemProvider.getChildren. simpl. rewrite Hr.
  pose proof (readDirectory_cases h fs (wf_uri root)) as Hc. rewrite Hl in Hc.
  rewrite Hc. simpl. eexists. split; [reflexivity|]. split.
  - apply Array_sort_Permutation.
  - apply Array_sort_claimed_order. apply Forall_forall. intros [c ty] Hin.
    apply in_map_iff in Hin as [c' [Heq Hin]]. inversion Heq; subst.
    rewrite Forall_forall in Ht. now apply Ht.
Qed.

End ChildrenOrder.

Lemma compare_code_points_refl (a : string) : compare_code_points a a = 0.
Proof.
  unfold compare_code_points.
  destruct (String_as_OT.compare_spec a a) as [_|Hlt|Hlt]; [reflexivity| |];
    exfalso; exact (irreflexivity Hlt).
Qed.

Lemma compare_code_points_total (a b : string) :
  0 <= compare_code_points a b -> compare_code_points b a <= 0.
Proof.
  unfold compare_code_points.
  destruct (String_as_OT.compare_spec a b) as [Heq|Hlt|Hgt]; intros H; try lia.
  - hnf in Heq. subst b. pose proof (compare_code_points_refl a) as Hr.
    unfold compare_code_points in Hr. lia.
  - unfold String_as_OT.lt in Hgt. rewrite Hgt. lia.
Qed.

Lemma compare_code_points_trans (a b c : string) :
  compare_code_points a b <= 0 -> compare_code_points b c <= 0 ->
  compare_code_points a c <= 0.
Proof.
  unfold compare_code_points.
  destruct (String_as_OT.compare_spec a b) as [Hab|Hab|Hab]; intros H1; try lia;
    destruct (String_as_OT.compare_spec b c) as [Hbc|Hbc|Hbc]; intros H2; try lia;
    hnf in Hab, Hbc; subst.
  - pose proof (compare_code_points_refl c) as Hr.
    unfold compare_code_points in Hr. rewrite Hr. lia.
  - rewrite Hbc. lia.
  - rewrite Hab. lia.
  - pose proof (transitivity (R := String_as_OT.lt) Hab Hbc) as Hac.
    hnf in Hac. rewrite Hac. lia.
Qed.

(** The example root holds Directories and Files only, so it comes out in
    the stated order. *)
Lemma getChildren_root_example_in_claimed_order :
  exists sorted,
    FileSystemProvider.getChildren posix_host example_fs (Some [ws_folder]) None =
      Resolved (map (FileSystemProvider.toEntry posix_host "/ws") sorted) /\
    Permutation sorted
      [("b.txt", vscode.File); ("a.txt", vscode.File); ("z", vscode.Directory)] /\
    StronglySorted (claimed_order posix_host) sorted.
Proof.
  apply (getChildren_root_in_claimed_order posix_host
           compare_code_points_total compare_code_points_trans vscode.File
           example_fs ws_folder ["b.txt"; "a.txt"; "z"]).
  - reflexivity.
  - reflexivity.
  - repeat (apply Forall_cons;
            [vm_compute; first [left; reflexivity | right; reflexivity]|]).
    apply Forall_nil.
Defined.

(** The example of the specification: files [b.txt], [a.txt] and directory
    [z] at the root come out as [z], [a.txt], [b.txt]. *)
Example getChildren_root_example :
  FileSystemProvider.getChildren posix_host example_fs (Some [ws_folder]) None =
  Resolved [entry "/ws/z" vscode.Directory; entry "/ws/a.txt" vscode.File;
            entry "/ws/b.txt" vscode.File].
Proof. reflexivity. Qed.

(** C1, at a root that mixes two types other than Directory. The root
    [/ws/z] lists the file [n] and then [gone], which cannot be statted
    (type Unknown). The comparator calls each greater than the other, the
    sort leaves them as listed, and the root children come out as [n],
    [gone], although [gone] sorts before [n]. *)
Theorem getChildren_root_mixed_types_not_in_name_order :
  FileSystemProvider.readDirectory posix_host example_fs z_uri =
    Resolved [("n", vscode.File); ("gone", vscode.Unknown)] /\
  FileSystemProvider.compareChildren posix_host ("gone", vscode.Unknown) ("n", vscode.File) = 1 /\
  FileSystemProvider.compareChildren posix_host ("n", vscode.File) ("gone", vscode.Unknown) = 1 /\
  FileSystemProvider.getChildren posix_host example_fs (Some [z_folder]) None =
    Resolved [entry "/ws/z/n" vscode.File; entry "/ws/z/gone" vscode.Unknown] /\
  localeCompare posix_host "gone" "n" < 0 /\
  ~ claimed_order posix_host ("n", vscode.File) ("gone", vscode.Unknown).
Proof.
  repeat split; try reflexivity.
  intros [_ Horder]. cbn in Horder.
  assert (Hgroup : vscode.File = vscode.Directory <-> vscode.Unknown = vscode.Directory)
    by (split; discriminate).
  specialize (Horder Hgroup). revert Horder. vm_compute. intros Hle. now apply Hle.
Qed.

Lemma getTreeItem_descriptor_witness :
  FileSystemProvider.getTreeItem posix_host example_fs (entry "/ws/b.txt" vscode.File) =
    Resolved {| vscode.resourceUri := vscode.Uri_file "/ws/b.txt";
                vscode.collapsibleState := vscode.None;
                vscode.ti_command := Some (openFile (vscode.Uri_file "/ws/b.txt"));
                vscode.contextValue := Some "file";
                vscode.description := Some " -  100 B - (60 B)" |} /\
  FileSystemProvider.getTreeItem posix_host example_fs (entry "/ws/z" vscode.Directory) =
    Resolved {| vscode.resourceUri := vscode.Uri_file "/ws/z";
                vscode.collapsibleState := vscode.Collapsed;
                vscode.ti_command := None;
                vscode.contextValue := None;
                vscode.description := Some " - 7 B" |}.
Proof.
  split.
  - destruct (getTreeItem_descriptor posix_host example_fs (entry "/ws/b.txt" vscode.File))
      as (Hfile & _).
    exact (Hfile eq_refl (regular 100) eq_refl).
  - destruct (getTreeItem_descriptor posix_host example_fs (entry "/ws/z" vscode.Directory))
      as (_ & Hdir & _).
    exact (Hdir eq_refl 7 eq_refl).
Defined.

Lemma size_failures_reach_the_descriptor_witness :
  FileSystemProvider._getDirSize example_fs "/ws/removed" = Resolved JUndefined /\
  FileSystemProvider.getTreeItem posix_host example_fs (entry "/ws/removed" vscode.Directory)
    = Rejected TypeError /\
  FileSystemProvider.getTreeItem posix_host example_fs (entry "/ws/z/gone" vscode.File)
    = Rejected TypeError /\
  FileSystemProvider._getGzipSize example_fs "/ws/z/gone" = 0.
Proof.
  destruct (size_failures_reach_the_descriptor posix_host example_fs
              (entry "/ws/removed" vscode.Directory)) as (_ & _ & Hdir & _).
  destruct (size_failures_reach_the_descriptor posix_host example_fs
              (entry "/ws/z/gone" vscode.File)) as (Hgz & _ & _ & Hfile).
  destruct (Hdir eq_refl) as [Hsize Hitem].
  split; [exact Hsize|]. split; [exact (Hitem eq_refl)|].
  split; [exact (Hfile eq_refl eq_refl)|exact (Hgz eq_refl)].
Defined.


(** * Further properties of the code *)

(** ** Error mapping and reading a file *)

Section ErrorMapping.

Lemma massageError_cases (code : string) :
  (code = "ENOENT" /\ Util.massageError code = FileSystemError FileNotFound) \/
  (code = "EISDIR" /\ Util.massageError code = FileSystemError FileIsADirectory) \/
  (code = "EEXIST" /\ Util.massageError code = FileSystemError FileExists) \/
  ((code = "EPERM" \/ code = "EACCESS" \/ code = "EBUSY") /\
   Util.massageError code = FileSystemError NoPermissions) \/
  (code <> "ENOENT" /\ code <> "EISDIR" /\ code <> "EEXIST" /\
   code <> "EPERM" /\ code <> "EACCESS" /\ code <> "EBUSY" /\
   Util.massageError code = NodeError code).
Proof.
  unfold Util.massageError.
  destruct (String.eqb_spec code "ENOENT") as [E1|N1]; [left; now split|].
  destruct (String.eqb_spec code "EISDIR") as [E2|N2]; [right; left; now split|].
  destruct (String.eqb_spec code "EEXIST") as [E3|N3]; [right; right; left; now split|].
  destruct (String.eqb_spec code "EPERM") as [E4|N4];
    [right; right; right; left; split; [now left|reflexivity]|].
  destruct (String.eqb_spec code "EACCESS") as [E5|N5];
    [right; right; right; left; split; [right; now left|reflexivity]|].
  destruct (String.eqb_spec code "EBUSY") as [E6|N6];
    [right; right; right; left; split; [right; now right|reflexivity]|].
  right; right; right; right. repeat split; assumption.
Qed.

Ltac settle_codes :=
  intros; subst;
  repeat match goal with
         | H : _ \/ _ |- _ => destruct H; subst
         | H : _ /\ _ |- _ => destruct H
         end;
  try congruence; try tauto.

Lemma massageError_kind (code : string) (k : FileSystemErrorKind) :
  Util.massageError code = FileSystemError k <->
  match k with
  | FileNotFound => code = "ENOENT"
  | FileIsADirectory => code = "EISDIR"
  | FileExists => code = "EEXIST"
  | NoPermissions => code = "EPERM" \/ code = "EACCESS" \/ code = "EBUSY"
  end.
Proof.
  destruct (massageError_cases code)
    as [[Hc H]|[[Hc H]|[[Hc H]|[[Hc H]|(N1 & N2 & N3 & N4 & N5 & N6 & H)]]]];
    rewrite H; destruct k; split; settle_codes.
Qed.

Lemma massageError_passed_on (code c : string) :
  Util.massageError code = NodeError c <->
  c = code /\ code <> "ENOENT" /\ code <> "EISDIR" /\ code <> "EEXIST" /\
  code <> "EPERM" /\ code <> "EACCESS" /\ code <> "EBUSY".
Proof.
  destruct (massageError_cases code)
    as [[Hc H]|[[Hc H]|[[Hc H]|[[Hc H]|(N1 & N2 & N3 & N4 & N5 & N6 & H)]]]];
    rewrite H; split; settle_codes.
  inversion H0. subst. repeat split; assumption.
Qed.

(** X1. The error taxonomy of [massageError]: each file-system error kind comes
    from its own codes and from no other; every other code, the POSIX
    permission code EACCES among them, is passed on as the error it is;
    nothing else comes out. *)
Theorem massageError_taxonomy (code : string) :
  (Util.massageError code = FileSystemError FileNotFound <-> code = "ENOENT") /\
  (Util.massageError code = FileSystemError FileIsADirectory <-> code = "EISDIR") /\
  (Util.massageError code = FileSystemError FileExists <-> code = "EEXIST") /\
  (Util.massageError code = FileSystemError NoPermissions <->
     code = "EPERM" \/ code = "EACCESS" \/ code = "EBUSY") /\
  (forall c, Util.massageError code = NodeError c <->
     c = code /\ code <> "ENOENT" /\ code <> "EISDIR" /\ code <> "EEXIST" /\
     code <> "EPERM" /\ code <> "EACCESS" /\ code <> "EBUSY") /\
  Util.massageError code <> TypeError /\
  Util.massageError code <> OperationCancelled /\
  Util.massageError "EACCES" = NodeError "EACCES".
Proof.
  split; [apply (massageError_kind code FileNotFound)|].
  split; [apply (massageError_kind code FileIsADirectory)|].
  split; [apply (massageError_kind code FileExists)|].
  split; [apply (massageError_kind code NoPermissions)|].
  split; [intro c; apply massageError_passed_on|].
  destruct (massageError_cases code)
    as [[Hc H]|[[Hc H]|[[Hc H]|[[Hc H]|(N1 & N2 & N3 & N4 & N5 & N6 & H)]]]];
    rewrite H; repeat split; discriminate.
Qed.

Variable fs_readFile : string -> readFile_result.

(** X2. [readFile] always settles. It resolves exactly with the content
    [fs.readFile] delivers. It is rejected with NotFound (IsADirectory)
    exactly when [fs.readFile] reports ENOENT (EISDIR) through its callback;
    an error thrown by the call itself is passed on unmapped. *)
Theorem readFile_outcomes (uri : vscode.Uri) :
  readFile fs_readFile uri <> Pending /\
  (forall buffer, readFile fs_readFile uri = Resolved buffer <->
     fs_readFile (vscode.fsPath uri) = ReadFileOk buffer) /\
  (readFile fs_readFile uri = Rejected (FileSystemError FileNotFound) <->
     fs_readFile (vscode.fsPath uri) = ReadFileError "ENOENT") /\
  (readFile fs_readFile uri = Rejected (FileSystemError FileIsADirectory) <->
     fs_readFile (vscode.fsPath uri) = ReadFileError "EISDIR") /\
  (forall code, fs_readFile (vscode.fsPath uri) = ReadFileThrows code ->
     readFile fs_readFile uri = Rejected (NodeError code)).
Proof.
  assert (Hkind : forall k code,
            Rejected (A := list Byte.byte) (Util.massageError code) =
              Rejected (FileSystemError k) <->
            Util.massageError code = FileSystemError k).
  { intros k code. split; intros H; [now inversion H|now rewrite H]. }
  unfold readFile, readfile, Util.handleResult.
  destruct (fs_readFile (vscode.fsPath uri)) as [code|code|buffer].
  - split; [discriminate|]. split; [split; discriminate|].
    split; [split; discriminate|]. split; [split; discriminate|].
    intros c H. now inversion H.
  - split; [discriminate|]. split; [split; discriminate|].
    split; [|split].
    + rewrite Hkind, (massageError_kind code FileNotFound).
      split; intros H; [now subst|now inversion H].
    + rewrite Hkind, (massageError_kind code FileIsADirectory).
      split; intros H; [now subst|now inversion H].
    + intros c H. discriminate H.
  - split; [discriminate|]. split.
    + intros b. split; intros H; inversion H; reflexivity.
    + split; [split; discriminate|]. split; [split; discriminate|].
      intros c H. discriminate H.
Qed.

End ErrorMapping.

(** ** Stat of a path that exists *)

Section StatOfExistingPath.

Import vscode.

Lemma land_S_IFMT_mod (x : Z) :
  Z.land x Stats.S_IFMT = Z.land (x mod 2 ^ 32) Stats.S_IFMT.
Proof.
  rewrite <- (Z.land_ones x 32) by lia.
  rewrite <- Z.land_assoc. reflexivity.
Qed.

(** The 32-bit conversion of the bit operator does not disturb the format
    bits of a mode. *)
Lemma land_S_IFMT_ToInt32 (z : Z) :
  Z.land (ToInt32 (JNum z)) Stats.S_IFMT = Z.land z Stats.S_IFMT.
Proof.
  unfold ToInt32. cbv zeta.
  destruct (z mod 2 ^ 32 <? 2 ^ 31).
  - symmetry. apply land_S_IFMT_mod.
  - rewrite (land_S_IFMT_mod (z mod 2 ^ 32 - 2 ^ 32)), (land_S_IFMT_mod z).
    f_equal.
    replace (z mod 2 ^ 32 - 2 ^ 32) with (z mod 2 ^ 32 + (-1) * 2 ^ 32) by lia.
    rewrite Z_mod_plus_full. apply Zmod_mod.
Qed.

(** X3. For a path that can be statted, [stat] resolves with the size and time
    stamps the system reports, and the type tag is read off the format bits
    of the mode alone: File, Directory or SymbolicLink for the three
    formats, Unknown for every other one (socket, FIFO, device), whatever
    the permission bits and however large the mode is. *)
Theorem stat_of_statable_path (fs : FS) (u : Uri) (r : RawStat) :
  fs_statSync fs (fsPath u) = Some r ->
  exists d, FileSystemProvider.stat fs u = Resolved d /\
    FileStat.size d = JNum (st_size r) /\
    FileStat.ctime d = JNum (st_ctime r) /\
    FileStat.mtime d = JNum (st_mtime r) /\
    (FileStat.type d = File <-> Z.land (st_mode r) Stats.S_IFMT = Stats.S_IFREG) /\
    (FileStat.type d = Directory <-> Z.land (st_mode r) Stats.S_IFMT = Stats.S_IFDIR) /\
    (FileStat.type d = SymbolicLink <-> Z.land (st_mode r) Stats.S_IFMT = Stats.S_IFLNK) /\
    (FileStat.type d = Unknown <->
       Z.land (st_mode r) Stats.S_IFMT <> Stats.S_IFREG /\
       Z.land (st_mode r) Stats.S_IFMT <> Stats.S_IFDIR /\
       Z.land (st_mode r) Stats.S_IFMT <> Stats.S_IFLNK).
Proof.
  intros Hs. unfold FileSystemProvider.stat. rewrite _stat_resolves, Hs.
  eexists. split; [reflexivity|].
  split; [reflexivity|]. split; [reflexivity|]. split; [reflexivity|].
  unfold FileStat.type, Stats.isFile, Stats.isDirectory, Stats.isSymbolicLink,
    Stats.checkModeProperty.
  cbn [FileStat.fsStat Stats.of_raw Stats.mode].
  rewrite land_S_IFMT_ToInt32.
  destruct (Z.eqb_spec (Z.land (st_mode r) Stats.S_IFMT) Stats.S_IFREG) as [E1|N1].
  { rewrite E1. repeat split; intros; try discriminate; try reflexivity;
      try (exfalso; unfold Stats.S_IFREG, Stats.S_IFDIR, Stats.S_IFLNK in *; lia);
      try tauto. }
  destruct (Z.eqb_spec (Z.land (st_mode r) Stats.S_IFMT) Stats.S_IFDIR) as [E2|N2].
  { rewrite E2. repeat split; intros; try discriminate; try reflexivity;
      try (exfalso; unfold Stats.S_IFREG, Stats.S_IFDIR, Stats.S_IFLNK in *; lia);
      try tauto. }
  destruct (Z.eqb_spec (Z.land (st_mode r) Stats.S_IFMT) Stats.S_IFLNK) as [E3|N3].
  { rewrite E3. repeat split; intros; try discriminate; try reflexivity;
      try (exfalso; unfold Stats.S_IFREG, Stats.S_IFDIR, Stats.S_IFLNK in *; lia);
      try tauto. }
  repeat split; intros; try discriminate; try reflexivity; try contradiction;
    try assumption.
Qed.

End StatOfExistingPath.

Lemma stat_of_statable_path_witness :
  exists d, FileSystemProvider.stat example_fs (vscode.Uri_file "/ws/z") = Resolved d /\
    FileStat.size d = JNum 4096 /\ FileStat.type d = vscode.Directory.
Proof.
  destruct (stat_of_statable_path example_fs (vscode.Uri_file "/ws/z") folder eq_refl)
    as (d & Hd & Hsize & _ & _ & _ & Hdir & _).
  exists d. split; [exact Hd|]. split; [exact Hsize|].
  apply Hdir. reflexivity.
Defined.

(** ** Children: outcome, content and descriptors *)

Section ChildrenFacts.

Import vscode.

Variable h : Host.
Variable fs : FS.

Lemma getChildren_of_root (folders rest : list WorkspaceFolder) (root : WorkspaceFolder) :
  filter FileSystemProvider.is_file_root folders = root :: rest ->
  FileSystemProvider.getChildren h fs (Some folders) Datatypes.None =
  await (FileSystemProvider.readDirectory h fs (wf_uri root))
        (fun children =>
           Resolved (map (FileSystemProvider.toEntry h (fsPath (wf_uri root)))
                         (Array_sort (FileSystemProvider.compareChildren h) children))).
Proof.
  intros Hf. unfold FileSystemProvider.getChildren. rewrite Hf. reflexivity.
Qed.

Lemma await_readDirectory_outcome (u : Uri) (f : list (string * FileType) -> list Entry) :
  let p := await (FileSystemProvider.readDirectory h fs u) (fun c => Resolved (f c)) in
  (p = Pending <->
     fs_readdir fs (fsPath u) = ReaddirThrows \/
     (darwin h = true /\ exists code, fs_readdir fs (fsPath u) = ReaddirError code)) /\
  (forall e, p = Rejected e <->
     darwin h = false /\
     exists code, fs_readdir fs (fsPath u) = ReaddirError code /\ e = Util.massageError code) /\
  ((exists l, p = Resolved l) <-> exists children, fs_readdir fs (fsPath u) = ReaddirOk children).
Proof.
  intro p. unfold p. pose proof (readDirectory_cases h fs u) as Hc.
  destruct (fs_readdir fs (fsPath u)) as [|code|children]; rewrite Hc.
  - simpl. split; [|split].
    + split; [auto|reflexivity].
    + intros e. split; [discriminate|]. intros (_ & c & Hcode & _). discriminate Hcode.
    + split; intros [x Hx]; discriminate Hx.
  - destruct (darwin h); simpl; (split; [|split]).
    + split; [intros _; right; split; [reflexivity|now exists code]|reflexivity].
    + intros e. split; [discriminate|]. intros (Hd & _). discriminate Hd.
    + split; intros [x Hx]; discriminate Hx.
    + split; [discriminate|]. intros [Ht|[Hd _]]; discriminate.
    + intros e. split.
      * intros He. inversion He. split; [reflexivity|]. now exists code.
      * intros (_ & c & Hcode & ->). now inversion Hcode.
    + split; intros [x Hx]; discriminate Hx.
  - simpl. split; [|split].
    + split; [discriminate|]. intros [Ht|[_ [c Hcode]]]; discriminate.
    + intros e. split; [discriminate|]. intros (_ & c & Hcode & _). discriminate Hcode.
    + split; intros _; eexists; reflexivity.
Qed.

(** X4. [getChildren] settles as the listing of the directory it reads does
    (the parent's, or the first file root's): it resolves exactly when the
    listing succeeds; it is rejected, with the massaged listing error,
    exactly when the listing reports an error off darwin; and it never
    settles exactly when [fs.readdir] throws, or reports an error on
    darwin. *)
Theorem getChildren_outcome_by_listing
        (folders : list WorkspaceFolder) (element : option Entry) (u : Uri) :
  match element with
  | Some parent => u = uri parent
  | Datatypes.None =>
      exists root rest, filter FileSystemProvider.is_file_root folders = root :: rest /\
                        u = wf_uri root
  end ->
  let p := FileSystemProvider.getChildren h fs (Some folders) element in
  (p = Pending <->
     fs_readdir fs (fsPath u) = ReaddirThrows \/
     (darwin h = true /\ exists code, fs_readdir fs (fsPath u) = ReaddirError code)) /\
  (forall e, p = Rejected e <->
     darwin h = false /\
     exists code, fs_readdir fs (fsPath u) = ReaddirError code /\ e = Util.massageError code) /\
  ((exists l, p = Resolved l) <-> exists children, fs_readdir fs (fsPath u) = ReaddirOk children).
Proof.
  destruct element as [parent|].
  - intros ->. apply await_readDirectory_outcome.
  - intros (root & rest & Hf & ->). cbv zeta.
    rewrite (getChildren_of_root folders rest root Hf).
    apply (await_readDirectory_outcome (wf_uri root)
             (fun c => map (FileSystemProvider.toEntry h (fsPath (wf_uri root)))
                           (Array_sort (FileSystemProvider.compareChildren h) c))).
Qed.

(** X6. A root request returns the entries of the listing, each once, with
    its path and type tag, rearranged at most: whatever the types, nothing
    is dropped, duplicated or retagged by the sort. *)
Theorem getChildren_root_permutes_listing
        (folders rest : list WorkspaceFolder) (root : WorkspaceFolder)
        (children : list string) :
  filter FileSystemProvider.is_file_root folders = root :: rest ->
  fs_readdir fs (fsPath (wf_uri root)) = ReaddirOk children ->
  exists l,
    FileSystemProvider.getChildren h fs (Some folders) Datatypes.None = Resolved l /\
    Permutation l
      (map (fun c => {| uri := Uri_file (path_join h (fsPath (wf_uri root)) c);
                        type := child_type h fs (wf_uri root) c |})
           (listed_names h children)).
Proof.
  intros Hf Hl. rewrite (getChildren_of_root folders rest root Hf).
  pose proof (readDirectory_cases h fs (wf_uri root)) as Hc. rewrite Hl in Hc.
  rewrite Hc. simpl. eexists. split; [reflexivity|].
  rewrite (Permutation_map _ (Array_sort_Permutation h _)).
  rewrite map_map. reflexivity.
Qed.

(** The entries [getChildren] can return, by the directory read. *)
Lemma getChildren_entries
      (workspaceFolders : option (list WorkspaceFolder)) (element : option Entry)
      (l : list Entry) (e : Entry) :
  FileSystemProvider.getChildren h fs workspaceFolders element = Resolved l ->
  In e l ->
  exists (u : Uri) (c : string),
    e = {| uri := Uri_file (path_join h (fsPath u) c); type := child_type h fs u c |}.
Proof.
  intros Hg Hin. destruct workspaceFolders as [folders|].
  2:{ simpl in Hg. inversion Hg; subst. contradiction. }
  assert (Hread : forall u f,
            (forall c x, In x (f c) -> In x c) ->
            await (FileSystemProvider.readDirectory h fs u)
                  (fun c => Resolved (map (FileSystemProvider.toEntry h (fsPath u)) (f c)))
              = Resolved l ->
            exists (u : Uri) (c : string),
              e = {| uri := Uri_file (path_join h (fsPath u) c);
                     type := child_type h fs u c |}).
  { intros u f Hsub Ha. pose proof (readDirectory_cases h fs u) as Hc.
    destruct (fs_readdir fs (fsPath u)) as [|code|children]; rewrite Hc in Ha.
    - discriminate Ha.
    - destruct (darwin h); discriminate Ha.
    - simpl in Ha. inversion Ha; subst l; clear Ha.
      apply in_map_iff in Hin as [[name ty] [He Hin]].
      apply Hsub in Hin. apply in_map_iff in Hin as [c [Hc' _]].
      subst e. inversion Hc'; subst. exists u. eexists.
      unfold FileSystemProvider.toEntry. simpl. reflexivity. }
  destruct element as [parent|].
  - apply (Hread (uri parent) (fun c => c)); [auto|exact Hg].
  - destruct (filter FileSystemProvider.is_file_root folders) as [|root rest] eqn:Hf.
    + unfold FileSystemProvider.getChildren in Hg. rewrite Hf in Hg.
      inversion Hg; subst. contradiction.
    + rewrite (getChildren_of_root folders rest root Hf) in Hg.
      apply (Hread (wf_uri root) (Array_sort (FileSystemProvider.compareChildren h)));
        [|exact Hg].
      intros c x Hx. apply (Permutation_in x (Array_sort_Permutation h c) Hx).
Qed.

(** X9. On an unchanged file system every entry [getChildren] returns that is
    not a Directory gets its display descriptor: a File entry was statted
    when it was listed, so its size can be formatted. *)
Theorem getChildren_entries_get_descriptors
        (workspaceFolders : option (list WorkspaceFolder)) (element : option Entry)
        (l : list Entry) (e : Entry) :
  FileSystemProvider.getChildren h fs workspaceFolders element = Resolved l ->
  In e l ->
  type e <> Directory ->
  exists item, FileSystemProvider.getTreeItem h fs e = Resolved item.
Proof.
  intros Hg Hin Hd.
  destruct (getChildren_entries workspaceFolders element l e Hg Hin) as (u & c & ->).
  cbn [type] in Hd.
  destruct (child_type h fs u c) eqn:Ht.
  - rewrite getTreeItem_other; cbn [type]; try congruence. eexists; reflexivity.
  - rewrite getTreeItem_File by reflexivity. cbn [uri].
    change (fsPath (Uri_file (path_join h (fsPath u) c))) with (path_join h (fsPath u) c).
    unfold child_type in Ht.
    destruct (fs_statSync fs (path_join h (fsPath u) c)); [eexists; reflexivity|].
    discriminate Ht.
  - congruence.
  - rewrite getTreeItem_other; cbn [type]; try congruence. eexists; reflexivity.
Qed.

(** X10. [getTreeItem] always settles, and it is rejected in two cases only,
    each with the error of formatting an [undefined] size: a File node that
    cannot be statted, and a Directory node whose size computation reports
    an error. *)
Theorem getTreeItem_rejection (element : Entry) :
  FileSystemProvider.getTreeItem h fs element <> Pending /\
  forall e,
    FileSystemProvider.getTreeItem h fs element = Rejected e <->
    e = TypeError /\
    ((type element = File /\ fs_statSync fs (fsPath (uri element)) = Datatypes.None) \/
     (type element = Directory /\
      fastFolderSize fs (fsPath (uri element)) = FolderSizeError)).
Proof.
  destruct (type element) eqn:Ht.
  - rewrite getTreeItem_other by congruence. split; [discriminate|].
    intros e. split; [discriminate|]. intros (_ & [[Hc _]|[Hc _]]); discriminate Hc.
  - rewrite (getTreeItem_File h fs element Ht).
    destruct (fs_statSync fs (fsPath (uri element))).
    + split; [discriminate|]. intros e. split; [discriminate|].
      intros (_ & [[_ Hc]|[Hc _]]); discriminate Hc.
    + split; [discriminate|]. intros e. split.
      * intros He. inversion He. split; [reflexivity|]. left. now split.
      * intros (-> & _). reflexivity.
  - rewrite (getTreeItem_Directory h fs element Ht), _getDirSize_cases.
    destruct (fastFolderSize fs (fsPath (uri element))).
    + split; [discriminate|]. intros e. split; [discriminate|].
      intros (_ & [[Hc _]|[_ Hc]]); discriminate Hc.
    + split; [discriminate|]. intros e. split.
      * intros He. inversion He. split; [reflexivity|]. right. now split.
      * intros (-> & _). reflexivity.
    + split; [discriminate|]. intros e. split; [discriminate|].
      intros (_ & [[Hc _]|[_ Hc]]); discriminate Hc.
  - rewrite getTreeItem_other by congruence. split; [discriminate|].
    intros e. split; [discriminate|]. intros (_ & [[Hc _]|[Hc _]]); discriminate Hc.
Qed.

(** X11. A change notification for a listed child of a file-scheme parent
    names the very uri of that child's tree entry: the watcher joins and
    normalizes the file name as the listing does. *)
Theorem watch_event_names_the_entry
        (folders : list WorkspaceFolder) (parent : Entry) (children : list string)
        (f : string) (options : WatchOptions) (loop : EventLoop) :
  scheme (uri parent) = "file" ->
  fs_readdir fs (fsPath (uri parent)) = ReaddirOk children ->
  In f children ->
  exists l e,
    FileSystemProvider.getChildren h fs (Some folders) (Some parent) = Resolved l /\
    In e l /\
    fired (step (FileSystemProvider.watch h (uri parent) options)
                (Notify "change" (Some f)) loop) =
    (fired loop ++ [[ {| fce_type := Changed; fce_uri := uri e |} ]])%list.
Proof.
  intros Hscheme Hl Hin.
  unfold FileSystemProvider.getChildren.
  pose proof (readDirectory_cases h fs (uri parent)) as Hc. rewrite Hl in Hc.
  rewrite Hc. simpl. rewrite map_map.
  eexists. exists {| uri := Uri_file (path_join h (fsPath (uri parent)) (Util.normalizeNFC h f));
                     type := child_type h fs (uri parent) (Util.normalizeNFC h f) |}.
  split; [reflexivity|]. split.
  - apply in_map_iff. exists (Util.normalizeNFC h f). split; [reflexivity|].
    unfold listed_names, Util.normalizeNFC. destruct (darwin h); simpl.
    + now apply in_map.
    + exact Hin.
  - simpl. unfold FileSystemProvider.watch_listener, fired. simpl.
    unfold Uri_with_path, Uri_file. rewrite Hscheme. reflexivity.
Qed.


End ChildrenFacts.

(** ** The watcher: channels and provenance *)

Section WatcherInvariants.

Import vscode.

Variable h : Host.
Variable uri : Uri.
Variable options : WatchOptions.

Local Abbreviation w := (FileSystemProvider.watch h uri options).

Lemma step_channels (a : Action) (loop : EventLoop) :
  onDidChangeTreeData (provider (step w a loop)) = onDidChangeTreeData (provider loop) /\
  exists more, fired (step w a loop) = (fired loop ++ more)%list.
Proof.
  destruct a as [event [filename|]|i fs].
  - rewrite step_Notify. destruct (String.eqb event "change"); unfold fired; simpl.
    + split; [reflexivity|]. eexists; reflexivity.
    + split; [reflexivity|]. exists []. now rewrite app_nil_r.
  - rewrite step_Notify_nameless. split; [reflexivity|]. exists []. now rewrite app_nil_r.
  - destruct (nth_error (suspended loop) i) as [call|] eqn:Hcall.
    + rewrite (step_ExistsSettled w i fs loop call Hcall). unfold fired; simpl.
      split; [reflexivity|]. eexists; reflexivity.
    + simpl. unfold resume. rewrite Hcall.
      split; [reflexivity|]. exists []. now rewrite app_nil_r.
Qed.

(** X12. Watching never refreshes the tree: over any schedule the tree-data
    channel stays as it was, and the file-change channel only grows, the
    payloads fired before staying in place. *)
Theorem watch_keeps_to_its_channel (schedule : list Action) (loop : EventLoop) :
  onDidChangeTreeData (provider (run w schedule loop)) = onDidChangeTreeData (provider loop) /\
  exists more, fired (run w schedule loop) = (fired loop ++ more)%list.
Proof.
  revert loop. induction schedule as [|a schedule IH]; intro loop.
  - simpl. split; [reflexivity|]. exists []. now rewrite app_nil_r.
  - simpl. destruct (IH (step w a loop)) as [Ht [more Hm]].
    destruct (step_channels a loop) as [Ht1 [more1 Hm1]].
    split; [congruence|]. exists (more1 ++ more)%list.
    rewrite Hm, Hm1. now rewrite app_assoc.
Qed.

Lemma stems_from_more (seen more : list Action) (ev : FileChangeEvent) :
  stems_from h uri seen ev -> stems_from h uri (seen ++ more) ev.
Proof.
  intros (event & filename & Hin & Hrest). exists event, filename.
  split; [apply in_or_app; now left|exact Hrest].
Qed.

Lemma waits_for_more (seen more : list Action) (call : Suspended) :
  waits_for h uri seen call -> waits_for h uri (seen ++ more) call.
Proof.
  intros (event & filename & Hin & Hrest). exists event, filename.
  split; [apply in_or_app; now left|exact Hrest].
Qed.

Lemma Forall_without_nth {A : Type} (P : A -> Prop) (i : nat) (l : list A) :
  Forall P l -> Forall P (without_nth i l).
Proof.
  intros Hl. unfold without_nth. apply Forall_app. split.
  - apply Forall_forall. intros x Hx. rewrite Forall_forall in Hl.
    apply Hl. rewrite <- (firstn_skipn i l). apply in_or_app. now left.
  - apply Forall_forall. intros x Hx. rewrite Forall_forall in Hl.
    apply Hl. rewrite <- (firstn_skipn (S i) l). apply in_or_app. now right.
Qed.

Lemma provenance_more (seen more : list Action) (loop : EventLoop) :
  provenance h uri seen loop -> provenance h uri (seen ++ more) loop.
Proof.
  intros [Hf Hs]. split.
  - eapply Forall_impl; [|exact Hf]. intros payload Hp.
    eapply Forall_impl; [|exact Hp]. intros ev. apply stems_from_more.
  - eapply Forall_impl; [|exact Hs]. intros call. apply waits_for_more.
Qed.

Lemma step_provenance (seen : list Action) (a : Action) (loop : EventLoop) :
  provenance h uri seen loop -> provenance h uri (seen ++ [a]) (step w a loop).
Proof.
  intros Hp. pose proof (provenance_more seen [a] loop Hp) as [Hf Hs].
  destruct a as [event [filename|]|i fs].
  2:{ rewrite step_Notify_nameless. now split. }
  - rewrite step_Notify.
    destruct (String.eqb_spec event "change") as [Hev|Hev]; split; unfold fired; simpl.
    + apply Forall_app. split; [exact Hf|]. repeat constructor.
      exists event, filename. split; [apply in_or_app; right; now left|].
      split; [reflexivity|]. simpl. split; auto.
    + exact Hs.
    + exact Hf.
    + apply Forall_app. split; [exact Hs|]. repeat constructor.
      exists event, filename. split; [apply in_or_app; right; now left|].
      repeat split; assumption.
  - destruct (nth_error (suspended loop) i) as [call|] eqn:Hcall.
    + rewrite (step_ExistsSettled w i fs loop call Hcall). split; unfold fired; simpl.
      * apply Forall_app. split; [exact Hf|]. repeat constructor.
        apply nth_error_In in Hcall. rewrite Forall_forall in Hs.
        destruct (Hs call Hcall) as (event & filename & Hin & Hne & Hu & Hpath).
        exists event, filename. split; [exact Hin|]. simpl. rewrite Hu, Hpath.
        split; [reflexivity|].
        destruct (fs_access fs _); split; intro Hc; try discriminate Hc; contradiction.
      * now apply Forall_without_nth.
    + simpl. unfold resume. rewrite Hcall. now split.
Qed.

Lemma run_provenance (schedule : list Action) :
  forall seen loop, provenance h uri seen loop ->
                    provenance h uri (seen ++ schedule) (run w schedule loop).
Proof.
  induction schedule as [|a schedule IH]; intros seen loop Hp.
  - simpl. now rewrite app_nil_r.
  - simpl. replace (seen ++ a :: schedule)%list with ((seen ++ [a]) ++ schedule)%list
      by (rewrite <- app_assoc; reflexivity).
    apply IH. now apply step_provenance.
Qed.

(** X13. Starting with nothing fired and nothing waiting, every event ever
    fired goes back to a notification of the schedule: it carries the
    watched uri with that notification's joined, normalized file name, and
    it is [Changed] exactly when the raw kind was ['change']; and every call
    still waiting goes back to a notification of another kind. No event is
    made up, and none names a path outside the notifications. *)
Theorem watch_events_stem_from_notifications (schedule : list Action) :
  Forall (Forall (stems_from h uri schedule)) (fired (run w schedule idle)) /\
  Forall (waits_for h uri schedule) (suspended (run w schedule idle)).
Proof.
  apply (run_provenance schedule [] idle). split; constructor.
Qed.

End WatcherInvariants.


(** ** The explorer's commands *)

Section Commands.

Import vscode.

Lemma executeCommand_cases (name : string) (resource : Arg) (w : Window) :
  (name = "fileExplorer.openFile" /\
   FileExplorer.executeCommand name resource w =
     Some (FileExplorer.openResource resource w)) \/
  (name = "fileExplorer.refreshFile" /\
   FileExplorer.executeCommand name resource w =
     Some {| tree := refreshFile resource (tree w); executed := executed w |}) \/
  (name = "fileExplorer.refreshRoot" /\
   FileExplorer.executeCommand name resource w =
     Some {| tree := refreshFile ArgUndefined (tree w); executed := executed w |}) \/
  (name = "fileExplorer.openFolder" /\
   FileExplorer.executeCommand name resource w = openFolder resource w) \/
  (name <> "fileExplorer.openFile" /\ name <> "fileExplorer.refreshFile" /\
   name <> "fileExplorer.refreshRoot" /\ name <> "fileExplorer.openFolder" /\
   FileExplorer.executeCommand name resource w = Datatypes.None).
Proof.
  unfold FileExplorer.executeCommand, FileExplorer.commands, FileExplorer.lookup.
  destruct (String.eqb_spec "fileExplorer.openFile" name) as [E1|N1];
    [left; split; [now symmetry|reflexivity]|].
  destruct (String.eqb_spec "fileExplorer.refreshFile" name) as [E2|N2];
    [right; left; split; [now symmetry|reflexivity]|].
  destruct (String.eqb_spec "fileExplorer.refreshRoot" name) as [E3|N3];
    [right; right; left; split; [now symmetry|reflexivity]|].
  destruct (String.eqb_spec "fileExplorer.openFolder" name) as [E4|N4];
    [right; right; right; left; split; [now symmetry|reflexivity]|].
  right; right; right; right. repeat split; congruence.
Qed.

(** X14. Activating the item [getTreeItem] returns for a File node runs, through
    the commands the explorer registers, the host's [vscode.open] on that
    node's uri and nothing else; the item of any other node has nothing to
    activate. *)
Theorem activating_a_file_item_opens_it
        (h : Host) (fs : FS) (element : Entry) (item : TreeItem) (w : Window) :
  FileSystemProvider.getTreeItem h fs element = Resolved item ->
  (type element = File ->
   FileExplorer.activate item w =
     Some {| tree := tree w;
             executed := (executed w ++ [("vscode.open", ArgUri (uri element))])%list |}) /\
  (type element <> File -> FileExplorer.activate item w = Datatypes.None).
Proof.
  intros Hitem. destruct (type element) eqn:Ht.
  - rewrite getTreeItem_other in Hitem by congruence.
    inversion Hitem; subst item. split; [discriminate|reflexivity].
  - rewrite (getTreeItem_File h fs element Ht) in Hitem.
    destruct (fs_statSync fs (fsPath (uri element))); [|discriminate].
    inversion Hitem; subst item. split; [|congruence]. reflexivity.
  - rewrite (getTreeItem_Directory h fs element Ht) in Hitem.
    destruct (FileSystemProvider._getDirSize fs (fsPath (uri element))) as [[n| |]|e|];
      try discriminate.
    inversion Hitem; subst item. split; [discriminate|reflexivity].
  - rewrite getTreeItem_other in Hitem by congruence.
    inversion Hitem; subst item. split; [discriminate|reflexivity].
Qed.

Lemma carried_out_cases (name : string) (resource : Arg) :
  carried_out (name, resource) =
  if String.eqb name "fileExplorer.openFile" then true
  else if String.eqb name "fileExplorer.refreshFile" then true
  else if String.eqb name "fileExplorer.refreshRoot" then true
  else if String.eqb name "fileExplorer.openFolder"
       then match resource with ArgUndefined => false | _ => true end
  else false.
Proof.
  unfold carried_out. cbn [fst snd].
  destruct (String.eqb name "fileExplorer.openFile"); [reflexivity|].
  destruct (String.eqb name "fileExplorer.refreshFile"); [reflexivity|].
  destruct (String.eqb name "fileExplorer.refreshRoot"); [reflexivity|].
  destruct (String.eqb name "fileExplorer.openFolder"); reflexivity.
Qed.

Lemma executeCommand_effect (name : string) (resource : Arg) (w : Window) :
  match FileExplorer.executeCommand name resource w with
  | Some w' =>
      onDidChangeFile (tree w') = onDidChangeFile (tree w) /\
      (List.length (onDidChangeTreeData (tree w')) + List.length (executed w') =
       List.length (onDidChangeTreeData (tree w)) + List.length (executed w) + 1)%nat /\
      carried_out (name, resource) = true
  | Datatypes.None => carried_out (name, resource) = false
  end.
Proof.
  rewrite carried_out_cases.
  destruct (executeCommand_cases name resource w)
    as [[-> H]|[[-> H]|[[-> H]|[[-> H]|(N1 & N2 & N3 & N4 & H)]]]]; rewrite H.
  - simpl. rewrite List.length_app. simpl. repeat split; lia.
  - simpl. rewrite List.length_app. simpl. repeat split; lia.
  - simpl. rewrite List.length_app. simpl. repeat split; lia.
  - unfold openFolder. destruct resource; simpl; try reflexivity;
      rewrite List.length_app; simpl; repeat split; lia.
  - apply String.eqb_neq in N1, N2, N3, N4. now rewrite N1, N2, N3, N4.
Qed.

(** X15. The four commands keep to their channels and check nothing: over
    any series of invocations the file-change channel is never touched, and
    each invocation that is carried out adds exactly one entry, either a
    tree-data refresh or a host command. [openFile] hands any argument to
    [vscode.open], [refreshFile] fires any argument, [refreshRoot] fires
    [undefined] whatever it is handed, [openFolder] reveals the uri of an
    element; an invocation fails exactly when the name is not registered or
    it is [openFolder] of [undefined]. *)
Theorem commands_keep_to_their_channels (calls : list (string * Arg)) (w : Window) :
  let w' := FileExplorer.executeAll calls w in
  onDidChangeFile (tree w') = onDidChangeFile (tree w) /\
  (List.length (onDidChangeTreeData (tree w')) + List.length (executed w') =
   List.length (onDidChangeTreeData (tree w)) + List.length (executed w) + accepted calls)%nat /\
  (forall resource,
     FileExplorer.executeCommand "fileExplorer.openFile" resource w =
     Some {| tree := tree w;
             executed := (executed w ++ [("vscode.open", resource)])%list |}) /\
  (forall resource,
     FileExplorer.executeCommand "fileExplorer.refreshFile" resource w =
     Some {| tree := {| onDidChangeFile := onDidChangeFile (tree w);
                        onDidChangeTreeData :=
                          (onDidChangeTreeData (tree w) ++ [resource])%list |};
             executed := executed w |}) /\
  (forall resource,
     FileExplorer.executeCommand "fileExplorer.refreshRoot" resource w =
     Some {| tree := {| onDidChangeFile := onDidChangeFile (tree w);
                        onDidChangeTreeData :=
                          (onDidChangeTreeData (tree w) ++ [ArgUndefined])%list |};
             executed := executed w |}) /\
  (forall e,
     FileExplorer.executeCommand "fileExplorer.openFolder" (ArgEntry e) w =
     Some {| tree := tree w;
             executed := (executed w ++ [("revealFileInOS", ArgUri (uri e))])%list |}) /\
  (forall name resource,
     FileExplorer.executeCommand name resource w = Datatypes.None <->
     (name <> "fileExplorer.openFile" /\ name <> "fileExplorer.refreshFile" /\
      name <> "fileExplorer.refreshRoot" /\ name <> "fileExplorer.openFolder") \/
     (name = "fileExplorer.openFolder" /\ resource = ArgUndefined)).
Proof.
  cbv zeta. split; [|split; [|split; [|split; [|split; [|split]]]]].
  - revert w. induction calls as [|[name resource] calls IH]; intro w; [reflexivity|].
    simpl. pose proof (executeCommand_effect name resource w) as He.
    destruct (FileExplorer.executeCommand name resource w) as [w1|].
    + rewrite IH. apply He.
    + apply IH.
  - revert w. induction calls as [|[name resource] calls IH]; intro w.
    + unfold accepted. simpl. lia.
    + unfold accepted in *. cbn [filter FileExplorer.executeAll fold_left fst snd].
      pose proof (executeCommand_effect name resource w) as He.
      fold (FileExplorer.executeAll calls).
      destruct (FileExplorer.executeCommand name resource w) as [w1|].
      * destruct He as (_ & Hn & ->). cbn [List.length].
        change (fold_left _ calls w1) with (FileExplorer.executeAll calls w1).
        rewrite IH. lia.
      * rewrite He. change (fold_left _ calls w) with (FileExplorer.executeAll calls w).
        apply IH.
  - intros resource. reflexivity.
  - intros resource. reflexivity.
  - intros resource. reflexivity.
  - intros e. reflexivity.
  - intros name resource. split.
    + intros Hnone.
      destruct (executeCommand_cases name resource w)
        as [[-> H]|[[-> H]|[[-> H]|[[-> H]|(N1 & N2 & N3 & N4 & H)]]]];
        rewrite H in Hnone; try discriminate Hnone.
      * right. split; [reflexivity|].
        unfold openFolder in Hnone. destruct resource; simpl in Hnone;
          try discriminate Hnone. reflexivity.
      * left. repeat split; assumption.
    + intros [(N1 & N2 & N3 & N4)|[-> ->]]; [|reflexivity].
      destruct (executeCommand_cases name resource w)
        as [[E _]|[[E _]|[[E _]|[[E _]|(_ & _ & _ & _ & H)]]]]; try contradiction.
      exact H.
Qed.

End Commands.

(** ** Instances *)

Lemma getChildren_of_parent_in_listing_order_witness :
  FileSystemProvider.getChildren posix_host example_fs (Some [ws_folder])
    (Some (entry "/ws/z" vscode.Directory)) =
  Resolved [entry "/ws/z/n" vscode.File; entry "/ws/z/gone" vscode.Unknown].
Proof.
  apply (getChildren_of_parent_in_listing_order posix_host example_fs [ws_folder]
           (entry "/ws/z" vscode.Directory) ["n"; "gone"]).
  reflexivity.
Defined.

Lemma compareChildren_inconsistent_witness :
  FileSystemProvider.compareChildren posix_host ("n", vscode.File) ("gone", vscode.Unknown) = 1 /\
  FileSystemProvider.compareChildren posix_host ("gone", vscode.Unknown) ("n", vscode.File) = 1.
Proof.
  apply (compareChildren_inconsistent posix_host ("n", vscode.File) ("gone", vscode.Unknown));
    discriminate.
Defined.

Lemma getChildren_outcome_by_listing_witness :
  FileSystemProvider.getChildren posix_host example_fs (Some [ws_folder])
    (Some (entry "/locked" vscode.Directory)) = Rejected (FileSystemError NoPermissions) /\
  FileSystemProvider.getChildren darwin_host example_fs (Some [ws_folder])
    (Some (entry "/locked" vscode.Directory)) = Pending.
Proof.
  split.
  - destruct (getChildren_outcome_by_listing posix_host example_fs [ws_folder]
                (Some (entry "/locked" vscode.Directory)) (vscode.Uri_file "/locked") eq_refl)
      as (_ & Hrej & _).
    apply Hrej. split; [reflexivity|]. exists "EPERM". split; reflexivity.
  - destruct (getChildren_outcome_by_listing darwin_host example_fs [ws_folder]
                (Some (entry "/locked" vscode.Directory)) (vscode.Uri_file "/locked") eq_refl)
      as (Hpend & _).
    apply Hpend. right. split; [reflexivity|]. now exists "EPERM".
Defined.

Lemma getChildren_root_permutes_listing_witness :
  exists l,
    FileSystemProvider.getChildren posix_host example_fs
      (Some [remote_folder; z_folder; ws_folder]) None = Resolved l /\
    Permutation l [entry "/ws/z/n" vscode.File; entry "/ws/z/gone" vscode.Unknown].
Proof.
  apply (getChildren_root_permutes_listing posix_host example_fs
           [remote_folder; z_folder; ws_folder] [ws_folder] z_folder ["n"; "gone"]);
    reflexivity.
Defined.

Lemma getChildren_entries_get_descriptors_witness :
  exists item,
    FileSystemProvider.getTreeItem posix_host example_fs (entry "/ws/z/gone" vscode.Unknown)
      = Resolved item.
Proof.
  apply (getChildren_entries_get_descriptors posix_host example_fs (Some [ws_folder])
           (Some (entry "/ws/z" vscode.Directory))
           [entry "/ws/z/n" vscode.File; entry "/ws/z/gone" vscode.Unknown]).
  - reflexivity.
  - right. left. reflexivity.
  - discriminate.
Defined.

Lemma watch_event_names_the_entry_witness :
  exists l e,
    FileSystemProvider.getChildren posix_host example_fs (Some [ws_folder])
      (Some (entry "/ws" vscode.Directory)) = Resolved l /\
    In e l /\
    fired (step (FileSystemProvider.watch posix_host ws_uri
                   {| recursive := false; excludes := [] |})
                (Notify "change" (Some "a.txt")) idle) =
    ([] ++ [[ {| vscode.fce_type := vscode.Changed; vscode.fce_uri := uri e |} ]])%list.
Proof.
  apply (watch_event_names_the_entry posix_host example_fs [ws_folder]
           (entry "/ws" vscode.Directory) ["b.txt"; "a.txt"; "z"] "a.txt"
           {| recursive := false; excludes := [] |} idle).
  - reflexivity.
  - reflexivity.
  - right. left. reflexivity.
Defined.

Lemma activating_a_file_item_opens_it_witness :
  exists item,
    FileSystemProvider.getTreeItem posix_host example_fs (entry "/ws/b.txt" vscode.File)
      = Resolved item /\
    FileExplorer.activate item empty_window =
      Some {| tree := tree empty_window;
              executed := [("vscode.open", ArgUri (vscode.Uri_file "/ws/b.txt"))] |}.
Proof.
  eexists. split; [reflexivity|].
  refine (proj1 (activating_a_file_item_opens_it posix_host example_fs
                   (entry "/ws/b.txt" vscode.File) _ empty_window eq_refl) eq_refl).
Defined.

